(** * Weather data pipeline: alert decision and deduplication

    A shallow embedding of the alert path of the pipeline
    ([src/alert_engine.py], [src/database.py], [src/api_client.py],
    [src/config.py], [main.py]) and the properties of its threshold
    evaluation, cooldown handling and audit logging.

    Conventions of the embedding.
    - A Python [float] is an IEEE binary64 number: Rocq's primitive [float].
      A Python [int] is a [Z].  Comparisons between the two are exact, as in
      Python.
    - The dictionaries the program passes around have a fixed set of keys and
      are embedded as records whose fields are optional (a key may be missing)
      and hold [PyNone] or a number.
    - Collaborator calls (database, SMTP, HTTP) run in a state-and-exception
      monad over a [world]: the tables of the database, the connection held by
      the [Database] object, the clock, the scripted outcome of each external
      interaction, and the trace of the calls made so far.
    - Times are UTC microseconds since the epoch; the Python clock
      ([datetime.utcnow()]) and the database clock ([NOW()]) read the same
      [clock], which does not advance inside one pipeline cycle. *)

From Stdlib Require Import ZArith String List Bool Lia.
From Stdlib Require Import Sorting.Permutation Sorting.Sorted.
From Stdlib Require Import Floats.PrimFloat Floats.SpecFloat Floats.FloatOps
  Floats.FloatAxioms.
Import ListNotations.
Set Warnings "-inexact-float".
Local Open Scope string_scope.
Local Open Scope list_scope.
Local Open Scope Z_scope.

(** ** Python values *)

Inductive num : Type :=
| Int (z : Z)
| Float (f : float).

Inductive pyval : Type :=
| PyNone
| PyNum (n : num).

Definition of_comparison (c : comparison) : float_comparison :=
  match c with
  | Eq => FEq
  | Lt => FLt
  | Gt => FGt
  end.

Definition flip_comparison (c : float_comparison) : float_comparison :=
  match c with
  | FLt => FGt
  | FGt => FLt
  | c => c
  end.

(** Python compares an [int] with a [float] by value, without rounding the
    integer: a finite float is [(-1)^s * m * 2^e]. *)
Definition int_compare_float (z : Z) (f : float) : float_comparison :=
  match Prim2SF f with
  | S754_zero _ => of_comparison (z ?= 0)
  | S754_infinity false => FLt
  | S754_infinity true => FGt
  | S754_nan => FNotComparable
  | S754_finite s m e =>
      let v := if s then Z.neg m else Z.pos m in
      if 0 <=? e then of_comparison (z ?= v * 2 ^ e)
      else of_comparison (z * 2 ^ (- e) ?= v)
  end.

Definition num_compare (a b : num) : float_comparison :=
  match a, b with
  | Int x, Int y => of_comparison (x ?= y)
  | Int x, Float g => int_compare_float x g
  | Float f, Int y => flip_comparison (int_compare_float y f)
  | Float f, Float g => PrimFloat.compare f g
  end.

(** [a >= b], [a <= b] and [a == b] on numbers; all three are [False] when an
    operand is NaN. *)
Definition num_ge (a b : num) : bool :=
  match num_compare a b with
  | FEq | FGt => true
  | _ => false
  end.

Definition num_le (a b : num) : bool :=
  match num_compare a b with
  | FEq | FLt => true
  | _ => false
  end.

Definition num_eq (a b : num) : bool :=
  match num_compare a b with
  | FEq => true
  | _ => false
  end.

(** [bool(x)]: [None], [0], [0.0] and [-0.0] are falsy, every other number
    (NaN included) is truthy. *)
Definition truthy (v : pyval) : bool :=
  match v with
  | PyNone => false
  | PyNum (Int z) => negb (z =? 0)
  | PyNum (Float f) => negb (PrimFloat.eqb f 0%float)
  end.

(** [d.get(key, default)] and [d.get(key)] on one entry of a dictionary. *)
Definition get (entry : option pyval) (default : pyval) : pyval :=
  match entry with
  | Some v => v
  | None => default
  end.

Definition get_or_none (entry : option pyval) : pyval := get entry PyNone.

(** ** Configuration ([src/config.py]) *)

Record Config : Type := mkConfig {
  DATABASE_URL : string;
  EMAIL_FROM : string;
  EMAIL_PASSWORD : string;
  EMAIL_TO : string;
  LOCATION : string;
  LATITUDE : float;
  LONGITUDE : float;
  HEAVY_RAIN_THRESHOLD : float;
  STRONG_WIND_THRESHOLD : float;
  EXTREME_TEMP_LOW : float;
  EXTREME_TEMP_HIGH : float;
  SCHEDULE_INTERVAL_MINUTES : Z;
  ALERT_COOLDOWN_HOURS : Z
}.

(** A string is truthy when it is not empty. *)
Definition str_truthy (s : string) : bool :=
  match s with
  | EmptyString => false
  | String _ _ => true
  end.

(** [Config.validate]: [all(required)]. *)
Definition validate (config : Config) : bool :=
  forallb str_truthy
    [DATABASE_URL config; EMAIL_FROM config; EMAIL_PASSWORD config; EMAIL_TO config].

(** ** Readings and alerts *)

(** The [weather_data] dictionary.  [get_current_weather] fills every key;
    callers such as [test_alert.py] leave some out. *)
Record weather_data : Type := mkWeather {
  wd_timestamp : option Z;
  wd_temperature : option pyval;
  wd_precipitation : option pyval;
  wd_wind_speed : option pyval;
  wd_humidity : option pyval;
  wd_weather_code : option pyval
}.

(** A dictionary is falsy when it has no key. *)
Definition wd_truthy (w : weather_data) : bool :=
  match wd_timestamp w, wd_temperature w, wd_precipitation w,
        wd_wind_speed w, wd_humidity w, wd_weather_code w with
  | None, None, None, None, None, None => false
  | _, _, _, _, _, _ => true
  end.

(** The pieces of an f-string: literal text and formatted numbers. *)
Inductive fpart : Type :=
| Lit (s : string)
| Fmt (v : pyval).

(** The alert dictionary: [{"type": .., "severity": .., "message": ..}]. *)
Record alert : Type := mkAlert {
  alert_type : string;
  severity : string;
  message : list fpart
}.

(** ** Threshold evaluation ([AlertEngine.check_and_send_alerts], the part
    that builds the list [alerts]) *)

Definition heavy_rain_alert (config : Config) (precipitation : pyval) : alert :=
  {| alert_type := "HEAVY_RAIN";
     severity := "HIGH";
     message := [Lit "Heavy rainfall detected: "; Fmt precipitation;
                 Lit " mm/h (Threshold: ";
                 Fmt (PyNum (Float (HEAVY_RAIN_THRESHOLD config)));
                 Lit " mm/h)"] |}.

Definition strong_wind_alert (config : Config) (wind_speed : pyval) : alert :=
  {| alert_type := "STRONG_WIND";
     severity := "HIGH";
     message := [Lit "Strong wind detected: "; Fmt wind_speed;
                 Lit " km/h (Threshold: ";
                 Fmt (PyNum (Float (STRONG_WIND_THRESHOLD config)));
                 Lit " km/h)"] |}.

Definition extreme_cold_alert (config : Config) (temperature : pyval) : alert :=
  {| alert_type := "EXTREME_COLD";
     severity := "MEDIUM";
     message := [Lit "Extreme cold detected: "; Fmt temperature;
                 Lit "°C (Threshold: ";
                 Fmt (PyNum (Float (EXTREME_TEMP_LOW config)));
                 Lit "°C)"] |}.

Definition extreme_heat_alert (config : Config) (temperature : pyval) : alert :=
  {| alert_type := "EXTREME_HEAT";
     severity := "HIGH";
     message := [Lit "Extreme heat detected: "; Fmt temperature;
                 Lit "°C (Threshold: ";
                 Fmt (PyNum (Float (EXTREME_TEMP_HIGH config)));
                 Lit "°C)"] |}.

(** [value and value >= threshold], used as the test of an [if]. *)
Definition truthy_and_ge (value : pyval) (threshold : float) : bool :=
  match value with
  | PyNone => false
  | PyNum n => truthy value && num_ge n (Float threshold)
  end.

Definition rain_alerts (config : Config) (w : weather_data) : list alert :=
  let precipitation := get (wd_precipitation w) (PyNum (Int 0)) in
  if truthy_and_ge precipitation (HEAVY_RAIN_THRESHOLD config)
  then [heavy_rain_alert config precipitation]
  else [].

Definition wind_alerts (config : Config) (w : weather_data) : list alert :=
  let wind_speed := get (wd_wind_speed w) (PyNum (Int 0)) in
  if truthy_and_ge wind_speed (STRONG_WIND_THRESHOLD config)
  then [strong_wind_alert config wind_speed]
  else [].

Definition temperature_alerts (config : Config) (w : weather_data) : list alert :=
  let temperature := get_or_none (wd_temperature w) in
  match temperature with
  | PyNone => []
  | PyNum t =>
      if num_le t (Float (EXTREME_TEMP_LOW config))
      then [extreme_cold_alert config temperature]
      else if num_ge t (Float (EXTREME_TEMP_HIGH config))
      then [extreme_heat_alert config temperature]
      else []
  end.

(** The list [alerts] when the loop over it starts. *)
Definition alerts (config : Config) (w : weather_data) : list alert :=
  rain_alerts config w ++ wind_alerts config w ++ temperature_alerts config w.

(** ** The world of collaborators *)

(** [Database.connection]: [None], an open connection, or one whose [closed]
    attribute is set. *)
Inductive connection_state : Type :=
| NoConnection
| ConnOpen
| ConnClosed.

(** A row of the table [alert_log]. *)
Record alert_log_row : Type := mkLogRow {
  timestamp : Z;
  row_alert_type : string;
  row_severity : string;
  row_message : list fpart;
  email_sent : bool
}.

(** A row of the table [weather_data]. *)
Record weather_row : Type := mkWeatherRow {
  wr_timestamp : option Z;
  wr_location : string;
  wr_latitude : float;
  wr_longitude : float;
  wr_temperature : pyval;
  wr_precipitation : pyval;
  wr_wind_speed : pyval;
  wr_humidity : pyval;
  wr_weather_code : pyval
}.

(** What the database does during one method call of [Database]: whether
    [psycopg2.connect] succeeds (asked only when a connection is opened),
    whether the statement and its commit succeed, whether [rollback] succeeds
    (asked only after a failed statement), and whether the connection is still
    open after a failed statement. *)
Record db_outcome : Type := mkDb {
  connect_ok : bool;
  statement_ok : bool;
  rollback_ok : bool;
  connection_survives : bool
}.

Definition db_fine : db_outcome :=
  {| connect_ok := true; statement_ok := true; rollback_ok := true;
     connection_survives := true |}.

(** The object under the key ["current"] of the API's JSON answer; an answer
    without that key is the object with no key. *)
Record api_current : Type := mkCurrent {
  temperature_2m : option pyval;
  precipitation : option pyval;
  wind_speed_10m : option pyval;
  relative_humidity_2m : option pyval;
  weather_code : option pyval
}.

(** What the HTTP request does: it raises a [RequestException] (time-out,
    connection error), something else raises (a body that is not the expected
    JSON), or it answers with a status code. *)
Inductive api_outcome : Type :=
| ApiRequestException
| ApiUnexpectedError
| ApiResponse (status_code : Z) (current : api_current).

Inductive event : Type :=
| Call_get_current_weather (latitude longitude : float)
| Call_test_connection
| Call_insert_weather_data (location : string) (latitude longitude : float)
                           (w : weather_data)
| Call_get_recent_alerts (type : string) (hours : Z)
| Call_send_email_alert (a : alert) (w : weather_data)
| Call_insert_alert_log (type sev : string) (msg : list fpart) (sent : bool)
| Call_scheduler_start (minutes : Z)
| Log_error (text : string).

Record world : Type := mkWorld {
  clock : Z;
  connection : connection_state;
  alert_log : list alert_log_row;
  weather_table : list weather_row;
  db_script : list db_outcome;
  smtp_script : list bool;
  api_script : list api_outcome;
  scheduler_fails : bool;
  trace : list event
}.

Definition set_connection (c : connection_state) (w : world) : world :=
  mkWorld (clock w) c (alert_log w) (weather_table w) (db_script w)
          (smtp_script w) (api_script w) (scheduler_fails w) (trace w).

Definition set_alert_log (l : list alert_log_row) (w : world) : world :=
  mkWorld (clock w) (connection w) l (weather_table w) (db_script w)
          (smtp_script w) (api_script w) (scheduler_fails w) (trace w).

Definition set_weather_table (l : list weather_row) (w : world) : world :=
  mkWorld (clock w) (connection w) (alert_log w) l (db_script w)
          (smtp_script w) (api_script w) (scheduler_fails w) (trace w).

Definition set_db_script (l : list db_outcome) (w : world) : world :=
  mkWorld (clock w) (connection w) (alert_log w) (weather_table w) l
          (smtp_script w) (api_script w) (scheduler_fails w) (trace w).

Definition set_smtp_script (l : list bool) (w : world) : world :=
  mkWorld (clock w) (connection w) (alert_log w) (weather_table w) (db_script w)
          l (api_script w) (scheduler_fails w) (trace w).

Definition set_api_script (l : list api_outcome) (w : world) : world :=
  mkWorld (clock w) (connection w) (alert_log w) (weather_table w) (db_script w)
          (smtp_script w) l (scheduler_fails w) (trace w).

Definition set_trace (l : list event) (w : world) : world :=
  mkWorld (clock w) (connection w) (alert_log w) (weather_table w) (db_script w)
          (smtp_script w) (api_script w) (scheduler_fails w) l.

(** ** State and exceptions *)

Inductive exn : Type :=
| OperationalError
| DatabaseError
| UnboundLocalError
| SchedulerError.

Inductive result (A : Type) : Type :=
| Ret (a : A)
| Raise (e : exn).

Arguments Ret {A} a.
Arguments Raise {A} e.

Definition M (A : Type) : Type := world -> result A * world.

Definition ret {A} (a : A) : M A := fun w => (Ret a, w).

Definition raise {A} (e : exn) : M A := fun w => (Raise e, w).

Definition bind {A B} (m : M A) (k : A -> M B) : M B :=
  fun w =>
    match m w with
    | (Ret a, w') => k a w'
    | (Raise e, w') => (Raise e, w')
    end.

(** [try: body except Exception as e: handler]. *)
Definition try_except {A} (body : M A) (handler : exn -> M A) : M A :=
  fun w =>
    match body w with
    | (Ret a, w') => (Ret a, w')
    | (Raise e, w') => handler e w'
    end.

(** The first statement of a [try] block, run on its own: the exception it
    raised, or its value.  The rest of the block and the [except] clause then
    know whether the variable it assigns is bound. *)
Definition attempt {A} (m : M A) : M (exn + A) :=
  fun w =>
    match m w with
    | (Ret a, w') => (Ret (inr a), w')
    | (Raise e, w') => (Ret (inl e), w')
    end.

Declare Scope py_scope.
Delimit Scope py_scope with py.
Notation "x <- m ;; k" := (bind m (fun x => k))
  (at level 61, m at next level, right associativity) : py_scope.
Notation "m ;; k" := (bind m (fun _ => k))
  (at level 61, right associativity) : py_scope.
Local Open Scope py_scope.

Definition emit (e : event) : M unit :=
  fun w => (Ret tt, set_trace (trace w ++ [e]) w).

Definition logger_error (text : string) : M unit := emit (Log_error text).

(** [for x in l: body x]. *)
Fixpoint for_each {A} (l : list A) (body : A -> M unit) : M unit :=
  match l with
  | [] => ret tt
  | x :: rest => body x ;; for_each rest body
  end.

Definition next_db_outcome : M db_outcome :=
  fun w =>
    match db_script w with
    | [] => (Ret db_fine, w)
    | o :: rest => (Ret o, set_db_script rest w)
    end.

Definition next_smtp_outcome : M bool :=
  fun w =>
    match smtp_script w with
    | [] => (Ret true, w)
    | o :: rest => (Ret o, set_smtp_script rest w)
    end.

Definition next_api_outcome : M api_outcome :=
  fun w =>
    match api_script w with
    | [] => (Ret ApiRequestException, w)
    | o :: rest => (Ret o, set_api_script rest w)
    end.

(** ** Database operations ([src/database.py]) *)

(** [Database(config)]: a new object whose [connection] is [None]. *)
Definition Database : M unit :=
  fun w => (Ret tt, set_connection NoConnection w).

(** [Database._get_connection]: connects when there is no open connection;
    a failure to connect is logged and raised again. *)
Definition _get_connection (o : db_outcome) : M unit :=
  fun w =>
    match connection w with
    | ConnOpen => (Ret tt, w)
    | NoConnection | ConnClosed =>
        if connect_ok o then (Ret tt, set_connection ConnOpen w)
        else (logger_error "Failed to connect to database" ;;
              raise OperationalError) w
    end.

(** [cursor.execute(query, values); conn.commit()]: on success [effect] is
    applied to the tables; on failure nothing is stored and the connection may
    be lost. *)
Definition execute {A} (o : db_outcome) (effect : world -> A * world) : M A :=
  fun w =>
    if statement_ok o then
      let (a, w') := effect w in (Ret a, w')
    else if connection_survives o then (Raise DatabaseError, w)
    else (Raise DatabaseError, set_connection ConnClosed w).

(** [conn.rollback()]. *)
Definition rollback (o : db_outcome) : M unit :=
  if rollback_ok o then ret tt else raise DatabaseError.

(** The [except] clause shared by [insert_weather_data] and
    [insert_alert_log]:
    [logger.error(..); if conn: conn.rollback(); return False].
    [conn] is assigned by the first statement of the [try] block, so it is
    unbound when [_get_connection] raised, and reading it raises
    [UnboundLocalError] out of the method. *)
Definition insert_except (o : db_outcome) (conn_bound : bool) (text : string)
  : M bool :=
  logger_error text ;;
  if conn_bound then rollback o ;; ret false
  else raise UnboundLocalError.

(** [Database.test_connection]. *)
Definition test_connection : M bool :=
  emit Call_test_connection ;;
  o <- next_db_outcome ;;
  try_except
    (_get_connection o ;;
     execute o (fun w => (tt, w)) ;;
     ret true)
    (fun _ => logger_error "Connection test failed" ;; ret false).

Definition weather_row_of (location : string) (latitude longitude : float)
  (w : weather_data) : weather_row :=
  {| wr_timestamp := wd_timestamp w;
     wr_location := location;
     wr_latitude := latitude;
     wr_longitude := longitude;
     wr_temperature := get_or_none (wd_temperature w);
     wr_precipitation := get_or_none (wd_precipitation w);
     wr_wind_speed := get_or_none (wd_wind_speed w);
     wr_humidity := get_or_none (wd_humidity w);
     wr_weather_code := get_or_none (wd_weather_code w) |}.

(** [Database.insert_weather_data]. *)
Definition insert_weather_data (location : string) (latitude longitude : float)
  (data : weather_data) : M bool :=
  emit (Call_insert_weather_data location latitude longitude data) ;;
  o <- next_db_outcome ;;
  conn <- attempt (_get_connection o) ;;
  match conn with
  | inl _ => insert_except o false "Failed to insert weather data"
  | inr _ =>
      try_except
        (execute o (fun w =>
           (tt, set_weather_table
                  (weather_table w ++ [weather_row_of location latitude longitude data])
                  w)) ;;
         ret true)
        (fun _ => insert_except o true "Failed to insert weather data")
  end.

(** [Database.insert_alert_log]; the row's timestamp is
    [datetime.utcnow()]. *)
Definition insert_alert_log (type sev : string) (msg : list fpart) (sent : bool)
  : M bool :=
  emit (Call_insert_alert_log type sev msg sent) ;;
  o <- next_db_outcome ;;
  conn <- attempt (_get_connection o) ;;
  match conn with
  | inl _ => insert_except o false "Failed to insert alert log"
  | inr _ =>
      try_except
        (execute o (fun w =>
           (tt, set_alert_log
                  (alert_log w ++ [mkLogRow (clock w) type sev msg sent])
                  w)) ;;
         ret true)
        (fun _ => insert_except o true "Failed to insert alert log")
  end.

Definition microseconds_per_hour : Z := 3600000000.

(** [WHERE alert_type = %s AND timestamp > NOW() - INTERVAL '%s hours']. *)
Definition recent_row (now : Z) (type : string) (hours : Z) (r : alert_log_row)
  : bool :=
  String.eqb (row_alert_type r) type
  && (now - hours * microseconds_per_hour <? timestamp r).

(** [ORDER BY timestamp DESC]. *)
Fixpoint insert_desc (r : alert_log_row) (l : list alert_log_row)
  : list alert_log_row :=
  match l with
  | [] => [r]
  | x :: rest =>
      if timestamp x <=? timestamp r then r :: x :: rest
      else x :: insert_desc r rest
  end.

Definition order_by_timestamp_desc (l : list alert_log_row) : list alert_log_row :=
  fold_right insert_desc [] l.

Definition select_recent_alerts (now : Z) (type : string) (hours : Z)
  (table : list alert_log_row) : list alert_log_row :=
  order_by_timestamp_desc (filter (recent_row now type hours) table).

(** [Database.get_recent_alerts]: any failure is logged and answered with the
    empty list. *)
Definition get_recent_alerts (type : string) (hours : Z) : M (list alert_log_row) :=
  emit (Call_get_recent_alerts type hours) ;;
  o <- next_db_outcome ;;
  try_except
    (_get_connection o ;;
     execute o (fun w =>
       (select_recent_alerts (clock w) type hours (alert_log w), w)))
    (fun _ => logger_error "Failed to get recent alerts" ;; ret []).

(** ** The API client ([src/api_client.py]) *)

(** The dictionary [get_current_weather] builds from the answer. *)
Definition weather_of_current (now : Z) (current : api_current) : weather_data :=
  {| wd_timestamp := Some now;
     wd_temperature := Some (get_or_none (temperature_2m current));
     wd_precipitation := Some (get (precipitation current) (PyNum (Int 0)));
     wd_wind_speed := Some (get_or_none (wind_speed_10m current));
     wd_humidity := Some (get_or_none (relative_humidity_2m current));
     wd_weather_code := Some (get_or_none (weather_code current)) |}.

(** [WeatherAPIClient.get_current_weather]: [None] unless the request answers
    with status 200. *)
Definition get_current_weather (latitude longitude : float)
  : M (option weather_data) :=
  emit (Call_get_current_weather latitude longitude) ;;
  o <- next_api_outcome ;;
  match o with
  | ApiRequestException =>
      logger_error "Error fetching weather data" ;; ret None
  | ApiUnexpectedError =>
      logger_error "Unexpected error" ;; ret None
  | ApiResponse status_code current =>
      if status_code =? 200 then
        fun w => (Ret (Some (weather_of_current (clock w) current)), w)
      else
        logger_error "API request failed" ;; ret None
  end.

(** ** The alert engine ([src/alert_engine.py]) *)

(** [AlertEngine._send_email_alert]: builds the message and runs the SMTP
    session; any exception is logged and answered with [False]. *)
Definition _send_email_alert (config : Config) (a : alert) (w : weather_data)
  : M bool :=
  emit (Call_send_email_alert a w) ;;
  sent <- next_smtp_outcome ;;
  if sent then ret true
  else logger_error "Failed to send email alert" ;; ret false.

(** [AlertEngine._process_alert]. *)
Definition _process_alert (config : Config) (a : alert) (w : weather_data)
  : M unit :=
  recent_alerts <- get_recent_alerts (alert_type a) (ALERT_COOLDOWN_HOURS config) ;;
  match recent_alerts with
  | _ :: _ =>
      insert_alert_log (alert_type a) (severity a) (message a) false ;;
      ret tt
  | [] =>
      sent <- _send_email_alert config a w ;;
      insert_alert_log (alert_type a) (severity a) (message a) sent ;;
      ret tt
  end.

(** [AlertEngine.check_and_send_alerts]. *)
Definition check_and_send_alerts (config : Config) (w : weather_data) : M unit :=
  for_each (alerts config w) (fun a => _process_alert config a w).

(** ** The pipeline ([main.py]) *)

(** [run_pipeline]: one cycle.  The configuration is the one the process
    environment holds; every exception is caught at the cycle boundary. *)
Definition run_pipeline (config : Config) : M bool :=
  try_except
    (Database ;;
     data <- get_current_weather (LATITUDE config) (LONGITUDE config) ;;
     match data with
     | None => logger_error "Failed to fetch weather data" ;; ret false
     | Some w =>
         if negb (wd_truthy w) then
           logger_error "Failed to fetch weather data" ;; ret false
         else
           success <- insert_weather_data (LOCATION config) (LATITUDE config)
                        (LONGITUDE config) w ;;
           if negb success then
             logger_error "Failed to store weather data" ;; ret false
           else
             check_and_send_alerts config w ;;
             ret true
     end)
    (fun _ => logger_error "Pipeline execution failed" ;; ret false).

(** [WeatherScheduler.start]: registers the interval job; a failure is logged
    and raised again. *)
Definition scheduler_start (config : Config) : M unit :=
  emit (Call_scheduler_start (SCHEDULE_INTERVAL_MINUTES config)) ;;
  fun w =>
    if scheduler_fails w then
      (logger_error "Failed to start scheduler" ;; raise SchedulerError) w
    else (Ret tt, w).

(** [main], up to the idle loop that keeps the process alive: the connection
    test, the initial cycle, the start of the scheduler. *)
Definition main (config : Config) : M unit :=
  Database ;;
  connected <- test_connection ;;
  if negb connected then
    logger_error "Database connection failed. Please check configuration."
  else
    run_pipeline config ;;
    scheduler_start config.

(** ** Observations used by the properties *)

(** The kinds of the alerts of a list, in order. *)
Definition kinds (l : list alert) : list string := map alert_type l.

(** An alert of this kind and severity is in the list. *)
Definition triggers (type sev : string) (l : list alert) : Prop :=
  exists a, In a l /\ alert_type a = type /\ severity a = sev.

(** A field is absent when its key is missing or holds [None]. *)
Definition absent (entry : option pyval) : Prop :=
  entry = None \/ entry = Some PyNone.

(** The calls of the dispatcher to the notifier and to the audit log. *)
Definition is_dispatch_call (e : event) : bool :=
  match e with
  | Call_send_email_alert _ _ | Call_insert_alert_log _ _ _ _ => true
  | _ => false
  end.

Definition dispatch_calls (t : list event) : list event :=
  filter is_dispatch_call t.

Definition is_insert_call (e : event) : bool :=
  match e with
  | Call_insert_alert_log _ _ _ _ => true
  | _ => false
  end.

Definition insert_calls (t : list event) : list event :=
  filter is_insert_call t.

Definition is_cycle_call (e : event) : bool :=
  match e with
  | Call_get_current_weather _ _ => true
  | _ => false
  end.

(** The number of pipeline cycles started in a trace. *)
Definition cycles (t : list event) : nat :=
  length (filter is_cycle_call t).

(** The outcome the next database call will meet. *)
Definition pending_db_outcome (w : world) : db_outcome :=
  match db_script w with
  | [] => db_fine
  | o :: _ => o
  end.

(** The next database call gets a connection. *)
Definition connects (w : world) : bool :=
  match connection w with
  | ConnOpen => true
  | NoConnection | ConnClosed => connect_ok (pending_db_outcome w)
  end.

(** The next database call gets a connection and its statement succeeds. *)
Definition db_call_succeeds (w : world) : bool :=
  connects w && statement_ok (pending_db_outcome w).

(** What [get_recent_alerts] answers in a world. *)
Definition query_answer (type : string) (hours : Z) (w : world)
  : list alert_log_row :=
  if db_call_succeeds w
  then select_recent_alerts (clock w) type hours (alert_log w)
  else [].

(** What the next SMTP session will answer. *)
Definition pending_smtp_outcome (w : world) : bool :=
  match smtp_script w with
  | [] => true
  | b :: _ => b
  end.

(** The next HTTP request does not produce a reading. *)
Definition fetch_fails (w : world) : bool :=
  match api_script w with
  | ApiResponse status_code _ :: _ => negb (status_code =? 200)
  | _ => true
  end.

Definition fetch_error_text (w : world) : string :=
  match api_script w with
  | ApiResponse _ _ :: _ => "API request failed"
  | ApiUnexpectedError :: _ => "Unexpected error"
  | _ => "Error fetching weather data"
  end.

Definition insert_call_of (a : alert) (sent : bool) : event :=
  Call_insert_alert_log (alert_type a) (severity a) (message a) sent.

(** The key of an audit call: the alert it records, without the flag. *)
Definition recorded_alert (e : event) : option (string * string * list fpart) :=
  match e with
  | Call_insert_alert_log type sev msg _ => Some (type, sev, msg)
  | _ => None
  end.

Definition alert_key (a : alert) : option (string * string * list fpart) :=
  Some (alert_type a, severity a, message a).

(** Whatever the computation does, it extends the trace, and only with events
    accepted by [p]. *)
Definition emits_only {A} (p : event -> bool) (m : M A) : Prop :=
  forall w r w', m w = (r, w') ->
    exists t, trace w' = trace w ++ t /\ forallb p t = true.

Definition not_dispatch_call (e : event) : bool := negb (is_dispatch_call e).

Definition not_cycle_call (e : event) : bool := negb (is_cycle_call e).

(** ** Fixtures *)

(** The defaults of [src/config.py], with the required settings filled in. *)
Definition default_config : Config :=
  {| DATABASE_URL := "postgresql://weather";
     EMAIL_FROM := "pipeline@example.org";
     EMAIL_PASSWORD := "secret";
     EMAIL_TO := "operator@example.org";
     LOCATION := "Vancouver";
     LATITUDE := 49.2827%float;
     LONGITUDE := (-123.1207)%float;
     HEAVY_RAIN_THRESHOLD := 10%float;
     STRONG_WIND_THRESHOLD := 50%float;
     EXTREME_TEMP_LOW := 0%float;
     EXTREME_TEMP_HIGH := 35%float;
     SCHEDULE_INTERVAL_MINUTES := 60;
     ALERT_COOLDOWN_HOURS := 6 |}.

(** The same configuration with other thresholds. *)
Definition with_thresholds (config : Config) (rain wind low high : float)
  : Config :=
  {| DATABASE_URL := DATABASE_URL config;
     EMAIL_FROM := EMAIL_FROM config;
     EMAIL_PASSWORD := EMAIL_PASSWORD config;
     EMAIL_TO := EMAIL_TO config;
     LOCATION := LOCATION config;
     LATITUDE := LATITUDE config;
     LONGITUDE := LONGITUDE config;
     HEAVY_RAIN_THRESHOLD := rain;
     STRONG_WIND_THRESHOLD := wind;
     EXTREME_TEMP_LOW := low;
     EXTREME_TEMP_HIGH := high;
     SCHEDULE_INTERVAL_MINUTES := SCHEDULE_INTERVAL_MINUTES config;
     ALERT_COOLDOWN_HOURS := ALERT_COOLDOWN_HOURS config |}.

(** Heavy-rain threshold at 0. *)
Definition zero_rain_config : Config := with_thresholds default_config 0 50 0 35.

(** Heavy-rain threshold below 0, strong-wind threshold at 0. *)
Definition negative_rain_config : Config :=
  with_thresholds default_config (-1) 0 0 35.

(** Thresholds that every number would breach. *)
Definition eager_config : Config :=
  with_thresholds default_config (-5) (-5) 100 (-100).

(** Low-temperature threshold (40) above the high-temperature threshold (35). *)
Definition inverted_config : Config := with_thresholds default_config 10 50 40 35.

(** A reading with the given temperature, precipitation and wind speed. *)
Definition reading (temperature precipitation wind_speed : option pyval)
  : weather_data :=
  {| wd_timestamp := Some 0;
     wd_temperature := temperature;
     wd_precipitation := precipitation;
     wd_wind_speed := wind_speed;
     wd_humidity := None;
     wd_weather_code := None |}.

(** The reading of [test_alert.py]. *)
Definition test_data : weather_data :=
  {| wd_timestamp := Some 0;
     wd_temperature := Some (PyNum (Int 30));
     wd_precipitation := Some (PyNum (Int 15));
     wd_wind_speed := Some (PyNum (Int 60));
     wd_humidity := Some (PyNum (Int 85));
     wd_weather_code := None |}.

(** A world at time [now] with a given audit log, no connection yet and
    scripted outcomes. *)
Definition world_at (now : Z) (log : list alert_log_row)
  (db : list db_outcome) (smtp : list bool) (api : list api_outcome) : world :=
  {| clock := now;
     connection := NoConnection;
     alert_log := log;
     weather_table := [];
     db_script := db;
     smtp_script := smtp;
     api_script := api;
     scheduler_fails := false;
     trace := [] |}.

(** The database cannot be reached. *)
Definition db_unreachable : db_outcome :=
  {| connect_ok := false; statement_ok := false; rollback_ok := false;
     connection_survives := false |}.

(** The statement fails on a live connection. *)
Definition db_statement_fails : db_outcome :=
  {| connect_ok := true; statement_ok := false; rollback_ok := true;
     connection_survives := true |}.

(** The connection is lost during the cooldown query. *)
Definition db_connection_lost : db_outcome :=
  {| connect_ok := true; statement_ok := false; rollback_ok := true;
     connection_survives := false |}.

(** ** Observations used by the further properties *)

(** [ORDER BY timestamp DESC]: each row is at least as recent as the next. *)
Definition newest_first (rows : list alert_log_row) : Prop :=
  Sorted (fun a b => timestamp b <= timestamp a) rows.

(** The dispatcher calls the notifier and records its answer. *)
Definition notifies (config : Config) (a : alert) (d : weather_data) (w : world)
  : Prop :=
  dispatch_calls (trace (snd (_process_alert config a d w)))
  = dispatch_calls (trace w)
    ++ [Call_send_email_alert a d; insert_call_of a (pending_smtp_outcome w)].

(** The dispatcher does not call the notifier and records
    [email_sent=False]. *)
Definition suppresses (config : Config) (a : alert) (d : weather_data) (w : world)
  : Prop :=
  dispatch_calls (trace (snd (_process_alert config a d w)))
  = dispatch_calls (trace w) ++ [insert_call_of a false].

(** A database outcome in which connecting and the statement succeed. *)
Definition db_ok (o : db_outcome) : bool := connect_ok o && statement_ok o.

(** Every database call still to come succeeds. *)
Definition healthy (w : world) : bool := forallb db_ok (db_script w).

(** The same world at another time. *)
Definition at_time (now : Z) (w : world) : world :=
  mkWorld now (connection w) (alert_log w) (weather_table w) (db_script w)
          (smtp_script w) (api_script w) (scheduler_fails w) (trace w).

(** The audit row of an alert. *)
Definition audit_row (now : Z) (a : alert) (sent : bool) : alert_log_row :=
  mkLogRow now (alert_type a) (severity a) (message a) sent.

(** The audit log holds a row of the alert's kind inside the cooldown
    window. *)
Definition in_cooldown (config : Config) (w : world) (a : alert) : bool :=
  match select_recent_alerts (clock w) (alert_type a)
          (ALERT_COOLDOWN_HOURS config) (alert_log w) with
  | [] => false
  | _ :: _ => true
  end.

Definition is_send_call (e : event) : bool :=
  match e with
  | Call_send_email_alert _ _ => true
  | _ => false
  end.




(** The reading the next HTTP request yields, if any. *)
Definition fetched_reading (w : world) : option weather_data :=
  match api_script w with
  | ApiResponse status_code current :: _ =>
      if status_code =? 200 then Some (weather_of_current (clock w) current)
      else None
  | _ => None
  end.

(** The world a fresh [Database] object starts from. *)
Definition fresh_database (w : world) : world := set_connection NoConnection w.

(** Whatever the computation does, it leaves the component [f] of the world
    as it was. *)
Definition preserves {A X} (f : world -> X) (m : M A) : Prop :=
  forall w, f (snd (m w)) = f w.

(** [os.getenv(key, default)] on the process environment. *)
Definition getenv (environ : string -> option string) (key default : string)
  : string :=
  match environ key with
  | Some value => value
  | None => default
  end.

(** [Config.__init__].  [py_float] and [py_int] are Python's [float()] and
    [int()] on strings, [None] standing for the [ValueError] they raise, which
    leaves the constructor. *)
Definition Config__init__ (py_float : string -> option float)
  (py_int : string -> option Z) (environ : string -> option string)
  : option Config :=
  match py_float (getenv environ "LATITUDE" "49.2827"),
        py_float (getenv environ "LONGITUDE" "-123.1207"),
        py_float (getenv environ "HEAVY_RAIN_THRESHOLD" "10.0"),
        py_float (getenv environ "STRONG_WIND_THRESHOLD" "50.0"),
        py_float (getenv environ "EXTREME_TEMP_LOW" "0.0"),
        py_float (getenv environ "EXTREME_TEMP_HIGH" "35.0"),
        py_int (getenv environ "SCHEDULE_INTERVAL_MINUTES" "60"),
        py_int (getenv environ "ALERT_COOLDOWN_HOURS" "6") with
  | Some latitude, Some longitude, Some rain, Some wind, Some low, Some high,
    Some minutes, Some hours =>
      Some {| DATABASE_URL := getenv environ "DATABASE_URL" "";
              EMAIL_FROM := getenv environ "EMAIL_FROM" "";
              EMAIL_PASSWORD := getenv environ "EMAIL_PASSWORD" "";
              EMAIL_TO := getenv environ "EMAIL_TO" "";
              LOCATION := getenv environ "LOCATION" "Vancouver";
              LATITUDE := latitude;
              LONGITUDE := longitude;
              HEAVY_RAIN_THRESHOLD := rain;
              STRONG_WIND_THRESHOLD := wind;
              EXTREME_TEMP_LOW := low;
              EXTREME_TEMP_HIGH := high;
              SCHEDULE_INTERVAL_MINUTES := minutes;
              ALERT_COOLDOWN_HOURS := hours |}
  | _, _, _, _, _, _, _, _ => None
  end.

(** The variable is set to a non-empty value. *)
Definition is_set (environ : string -> option string) (key : string) : Prop :=
  exists value, environ key = Some value /\ value <> "".

(** A database outcome in which connecting succeeds and a failed statement
    can be rolled back; the statement itself may fail. *)
Definition db_recoverable (o : db_outcome) : bool := connect_ok o && rollback_ok o.

(** Every database call still to come gets a connection and, if its statement
    fails, a successful rollback. *)
Definition recoverable (w : world) : bool := forallb db_recoverable (db_script w).

(** * Properties *)

(** ** Threshold evaluation *)

(** The end-to-end scenarios of the evaluation. *)
Example scenario_rain_and_wind :
  kinds (alerts default_config test_data) = ["HEAVY_RAIN"; "STRONG_WIND"].
Proof. vm_compute. reflexivity. Qed.

Example scenario_cold_only :
  kinds (alerts default_config
           (reading (Some (PyNum (Int (-5)))) (Some (PyNum (Int 0)))
                    (Some (PyNum (Int 5)))))
  = ["EXTREME_COLD"].
Proof. vm_compute. reflexivity. Qed.

Example scenario_all_absent :
  alerts default_config (reading None None None) = [].
Proof. reflexivity. Qed.

Example scenario_float_reading :
  kinds (alerts default_config
           (reading (Some (PyNum (Float 35%float))) (Some (PyNum (Float 9.5%float)))
                    (Some (PyNum (Float 50%float)))))
  = ["STRONG_WIND"; "EXTREME_HEAT"].
Proof. vm_compute. reflexivity. Qed.

Lemma kinds_alerts (config : Config) (w : weather_data) :
  kinds (alerts config w)
  = kinds (rain_alerts config w) ++ kinds (wind_alerts config w)
    ++ kinds (temperature_alerts config w).
Proof. unfold kinds, alerts. now rewrite !map_app. Qed.

Lemma kinds_rain_alerts (config : Config) (w : weather_data) :
  kinds (rain_alerts config w)
  = if truthy_and_ge (get (wd_precipitation w) (PyNum (Int 0)))
         (HEAVY_RAIN_THRESHOLD config)
    then ["HEAVY_RAIN"] else [].
Proof. unfold rain_alerts. now destruct (truthy_and_ge _ _). Qed.

Lemma kinds_wind_alerts (config : Config) (w : weather_data) :
  kinds (wind_alerts config w)
  = if truthy_and_ge (get (wd_wind_speed w) (PyNum (Int 0)))
         (STRONG_WIND_THRESHOLD config)
    then ["STRONG_WIND"] else [].
Proof. unfold wind_alerts. now destruct (truthy_and_ge _ _). Qed.

Lemma kinds_temperature_alerts (config : Config) (w : weather_data) :
  kinds (temperature_alerts config w)
  = match get_or_none (wd_temperature w) with
    | PyNone => []
    | PyNum t =>
        if num_le t (Float (EXTREME_TEMP_LOW config)) then ["EXTREME_COLD"]
        else if num_ge t (Float (EXTREME_TEMP_HIGH config)) then ["EXTREME_HEAT"]
        else []
    end.
Proof.
  unfold temperature_alerts.
  destruct (get_or_none (wd_temperature w)) as [|t]; [reflexivity|].
  destruct (num_le t _); [reflexivity|].
  now destruct (num_ge t _).
Qed.

(** Membership of a kind among the alerts, decided rule by rule. *)
Lemma heavy_rain_in_kinds (config : Config) (w : weather_data) :
  In "HEAVY_RAIN" (kinds (alerts config w))
  <-> truthy_and_ge (get (wd_precipitation w) (PyNum (Int 0)))
        (HEAVY_RAIN_THRESHOLD config) = true.
Proof.
  rewrite kinds_alerts, kinds_rain_alerts, kinds_wind_alerts,
    kinds_temperature_alerts.
  destruct (truthy_and_ge (get (wd_precipitation w) _) _);
    destruct (truthy_and_ge (get (wd_wind_speed w) _) _);
    destruct (get_or_none (wd_temperature w)) as [|t];
    try destruct (num_le t _); try destruct (num_ge t _);
    simpl; split; intros H; auto;
    repeat (destruct H as [H|H]; try discriminate H); try discriminate; tauto.
Qed.

Lemma strong_wind_in_kinds (config : Config) (w : weather_data) :
  In "STRONG_WIND" (kinds (alerts config w))
  <-> truthy_and_ge (get (wd_wind_speed w) (PyNum (Int 0)))
        (STRONG_WIND_THRESHOLD config) = true.
Proof.
  rewrite kinds_alerts, kinds_rain_alerts, kinds_wind_alerts,
    kinds_temperature_alerts.
  destruct (truthy_and_ge (get (wd_precipitation w) _) _);
    destruct (truthy_and_ge (get (wd_wind_speed w) _) _);
    destruct (get_or_none (wd_temperature w)) as [|t];
    try destruct (num_le t _); try destruct (num_ge t _);
    simpl; split; intros H; auto;
    repeat (destruct H as [H|H]; try discriminate H); try discriminate; tauto.
Qed.

Lemma temperature_kind_in_kinds (config : Config) (w : weather_data) (k : string) :
  k = "EXTREME_COLD" \/ k = "EXTREME_HEAT" ->
  In k (kinds (alerts config w)) <-> In k (kinds (temperature_alerts config w)).
Proof.
  intros Hk.
  rewrite kinds_alerts, kinds_rain_alerts, kinds_wind_alerts.
  rewrite !in_app_iff.
  destruct (truthy_and_ge (get (wd_precipitation w) _) _);
    destruct (truthy_and_ge (get (wd_wind_speed w) _) _);
    simpl; split; intros H; auto;
    repeat (destruct H as [H|H]; auto);
    try contradiction;
    destruct Hk; subst k; discriminate.
Qed.

Lemma triggers_kinds (type sev : string) (l : list alert) :
  triggers type sev l -> In type (kinds l).
Proof.
  intros (a & Ha & Ht & _). subst type. unfold kinds. now apply in_map.
Qed.

(** A number equal to zero ([p == 0]) is falsy. *)
Lemma int_compare_float_zero (f : float) :
  int_compare_float 0 f = FEq -> PrimFloat.eqb f 0%float = true.
Proof.
  unfold int_compare_float. rewrite FloatAxioms.eqb_spec.
  destruct (Prim2SF f) as [s|s| |s m e]; cbn [SFeqb SFcompare].
  - reflexivity.
  - destruct s; discriminate.
  - discriminate.
  - set (v := if s then Z.neg m else Z.pos m).
    assert (Hv : v <> 0) by (subst v; destruct s; discriminate).
    destruct (0 <=? e) eqn:He; intros H.
    + apply Z.leb_le in He.
      assert (Hp : 0 < 2 ^ e) by (apply Z.pow_pos_nonneg; lia).
      destruct (Z.compare_spec 0 (v * 2 ^ e)) as [Hc|Hc|Hc];
        try discriminate H.
      nia.
    + rewrite Z.mul_0_l in H.
      destruct (Z.compare_spec 0 v) as [Hc|Hc|Hc]; try discriminate H.
      congruence.
Qed.

Lemma num_eq_zero_falsy (p : num) :
  num_eq p (Int 0) = true -> truthy (PyNum p) = false.
Proof.
  unfold num_eq. destruct p as [z|f]; simpl.
  - destruct (z ?= 0) eqn:Hc; try discriminate.
    apply Z.compare_eq_iff in Hc. subst z. reflexivity.
  - intros H.
    destruct (int_compare_float 0 f) eqn:Hc; try discriminate.
    now rewrite (int_compare_float_zero f Hc).
Qed.

(** A number equal to the threshold is at least the threshold. *)
Lemma num_eq_ge (a b : num) : num_eq a b = true -> num_ge a b = true.
Proof. unfold num_eq, num_ge. now destruct (num_compare a b). Qed.

Lemma num_eq_le (a b : num) : num_eq a b = true -> num_le a b = true.
Proof. unfold num_eq, num_le. now destruct (num_compare a b). Qed.

Lemma absent_get_or_none (entry : option pyval) :
  absent entry <-> get_or_none entry = PyNone.
Proof.
  unfold absent, get_or_none, get. destruct entry as [[|n]|]; split; intros H;
    auto; try discriminate; destruct H; discriminate.
Qed.

Lemma absent_get_falsy (entry : option pyval) (threshold : float) :
  absent entry -> truthy_and_ge (get entry (PyNum (Int 0))) threshold = false.
Proof. intros [H|H]; subst entry; reflexivity. Qed.

(** C3, as amended: for a reading whose precipitation is a number, a
    HEAVY_RAIN alert of severity HIGH is returned if and only if the
    precipitation is non-zero and greater than or equal to the heavy-rain
    threshold; in particular a non-zero precipitation exactly equal to the
    threshold triggers HEAVY_RAIN. *)
Theorem heavy_rain_iff_nonzero_and_ge
  (config : Config) (w : weather_data) (p : num) :
  wd_precipitation w = Some (PyNum p) ->
  (triggers "HEAVY_RAIN" "HIGH" (alerts config w)
   <-> truthy (PyNum p) = true
       /\ num_ge p (Float (HEAVY_RAIN_THRESHOLD config)) = true)
  /\ (truthy (PyNum p) = true ->
      num_eq p (Float (HEAVY_RAIN_THRESHOLD config)) = true ->
      triggers "HEAVY_RAIN" "HIGH" (alerts config w)).
Proof.
  intros Hp.
  assert (Hback : truthy (PyNum p) = true
                  /\ num_ge p (Float (HEAVY_RAIN_THRESHOLD config)) = true ->
                  triggers "HEAVY_RAIN" "HIGH" (alerts config w)).
  { intros [Ht Hge].
    exists (heavy_rain_alert config (PyNum p)). repeat split.
    unfold alerts, rain_alerts. rewrite Hp. cbn [get truthy_and_ge].
    rewrite Ht, Hge. cbn [andb]. apply in_or_app. left. now left. }
  split; [split|].
  - intros H. apply triggers_kinds, heavy_rain_in_kinds in H.
    rewrite Hp in H. cbn [get truthy_and_ge] in H.
    now apply andb_true_iff in H.
  - exact Hback.
  - intros Ht Heq. apply Hback. split; [exact Ht|]. now apply num_eq_ge.
Qed.

Lemma heavy_rain_iff_nonzero_and_ge_witness :
  triggers "HEAVY_RAIN" "HIGH" (alerts default_config test_data)
  <-> truthy (PyNum (Int 15)) = true
      /\ num_ge (Int 15) (Float (HEAVY_RAIN_THRESHOLD default_config)) = true.
Proof.
  exact (proj1 (heavy_rain_iff_nonzero_and_ge default_config test_data (Int 15)
                  eq_refl)).
Defined.

(** C3, as stated, fails: with the heavy-rain threshold at 0, a precipitation
    of 0 is present and greater than or equal to the threshold, and no
    HEAVY_RAIN alert is returned. *)
Lemma heavy_rain_zero_at_zero_threshold :
  wd_precipitation (reading None (Some (PyNum (Int 0))) None)
  = Some (PyNum (Int 0))
  /\ ~ (triggers "HEAVY_RAIN" "HIGH"
          (alerts zero_rain_config
                  (reading None (Some (PyNum (Int 0))) None))
        <-> num_ge (Int 0)
              (Float (HEAVY_RAIN_THRESHOLD zero_rain_config)) = true).
Proof.
  split; [reflexivity|].
  intros [_ H].
  assert (Hge : num_ge (Int 0)
                  (Float (HEAVY_RAIN_THRESHOLD zero_rain_config)) = true)
    by (vm_compute; reflexivity).
  destruct (H Hge) as (a & Ha & _). exact Ha.
Qed.

(** C4: an absent field (a missing key or [None]) never triggers its
    condition, whatever the thresholds: absent precipitation never yields
    HEAVY_RAIN, absent wind speed never yields STRONG_WIND, absent temperature
    yields neither EXTREME_COLD nor EXTREME_HEAT. *)
Theorem absent_field_never_triggers (config : Config) (w : weather_data) :
  (absent (wd_precipitation w) -> ~ In "HEAVY_RAIN" (kinds (alerts config w)))
  /\ (absent (wd_wind_speed w) -> ~ In "STRONG_WIND" (kinds (alerts config w)))
  /\ (absent (wd_temperature w) ->
      ~ In "EXTREME_COLD" (kinds (alerts config w))
      /\ ~ In "EXTREME_HEAT" (kinds (alerts config w))).
Proof.
  split; [|split].
  - intros Ha H. apply heavy_rain_in_kinds in H.
    rewrite (absent_get_falsy _ _ Ha) in H. discriminate.
  - intros Ha H. apply strong_wind_in_kinds in H.
    rewrite (absent_get_falsy _ _ Ha) in H. discriminate.
  - intros Ha. apply absent_get_or_none in Ha.
    split; intros H; apply temperature_kind_in_kinds in H; auto;
      rewrite kinds_temperature_alerts, Ha in H; exact H.
Qed.

Lemma absent_field_never_triggers_witness :
  ~ In "HEAVY_RAIN"
      (kinds (alerts eager_config
                     (reading (Some PyNone) None (Some PyNone))))
  /\ ~ In "STRONG_WIND"
       (kinds (alerts eager_config
                      (reading (Some PyNone) None (Some PyNone))))
  /\ ~ In "EXTREME_COLD"
       (kinds (alerts eager_config
                      (reading (Some PyNone) None (Some PyNone)))).
Proof.
  pose proof (absent_field_never_triggers eager_config
                (reading (Some PyNone) None (Some PyNone))) as (Hr & Hw & Ht).
  split; [|split].
  - apply Hr. left. reflexivity.
  - apply Hw. right. reflexivity.
  - apply Ht. right. reflexivity.
Defined.

(** C5: one evaluation never returns both EXTREME_COLD and EXTREME_HEAT; the
    low-temperature test comes first, so a temperature at or below the low
    threshold yields EXTREME_COLD alone even when it is also at or above the
    high threshold; at most one temperature alert is returned. *)
Theorem cold_and_heat_exclusive (config : Config) (w : weather_data) :
  ~ (In "EXTREME_COLD" (kinds (alerts config w))
     /\ In "EXTREME_HEAT" (kinds (alerts config w)))
  /\ (forall t : num,
        get_or_none (wd_temperature w) = PyNum t ->
        num_le t (Float (EXTREME_TEMP_LOW config)) = true ->
        In "EXTREME_COLD" (kinds (alerts config w))
        /\ ~ In "EXTREME_HEAT" (kinds (alerts config w)))
  /\ (length (temperature_alerts config w) <= 1)%nat.
Proof.
  split; [|split].
  - intros [Hc Hh].
    apply temperature_kind_in_kinds in Hc; auto.
    apply temperature_kind_in_kinds in Hh; auto.
    rewrite kinds_temperature_alerts in Hc, Hh.
    destruct (get_or_none (wd_temperature w)) as [|t]; [exact Hc|].
    destruct (num_le t _).
    + destruct Hh as [Hh|[]]. discriminate Hh.
    + destruct (num_ge t _).
      * destruct Hc as [Hc|[]]. discriminate Hc.
      * exact Hc.
  - intros t Ht Hle.
    split; [|intros H]; [apply temperature_kind_in_kinds; auto
                        |apply temperature_kind_in_kinds in H; auto];
      rewrite kinds_temperature_alerts, Ht, Hle in *.
    + now left.
    + destruct H as [H|[]]. discriminate H.
  - unfold temperature_alerts.
    destruct (get_or_none (wd_temperature w)) as [|t]; simpl; [lia|].
    destruct (num_le t _); simpl; [lia|].
    destruct (num_ge t _); simpl; lia.
Qed.

Lemma cold_and_heat_exclusive_witness :
  In "EXTREME_COLD"
     (kinds (alerts inverted_config
                    (reading (Some (PyNum (Int 37))) None None)))
  /\ ~ In "EXTREME_HEAT"
       (kinds (alerts inverted_config
                      (reading (Some (PyNum (Int 37))) None None))).
Proof.
  apply (proj1 (proj2 (cold_and_heat_exclusive inverted_config
                         (reading (Some (PyNum (Int 37))) None None)))
           (Int 37)).
  - reflexivity.
  - vm_compute. reflexivity.
Defined.

(** C10: a precipitation equal to 0 never yields HEAVY_RAIN and a wind speed
    equal to 0 never yields STRONG_WIND, whatever the thresholds, also when
    the threshold is 0 or negative: a zero is falsy, like an absent field. *)
Theorem zero_never_triggers (config : Config) (w : weather_data) :
  (forall p : num,
     wd_precipitation w = Some (PyNum p) ->
     num_eq p (Int 0) = true ->
     ~ In "HEAVY_RAIN" (kinds (alerts config w)))
  /\ (forall s : num,
        wd_wind_speed w = Some (PyNum s) ->
        num_eq s (Int 0) = true ->
        ~ In "STRONG_WIND" (kinds (alerts config w))).
Proof.
  split.
  - intros p Hp Hz H. apply heavy_rain_in_kinds in H.
    rewrite Hp in H. cbn [get truthy_and_ge] in H.
    rewrite (num_eq_zero_falsy p Hz) in H. discriminate.
  - intros s Hs Hz H. apply strong_wind_in_kinds in H.
    rewrite Hs in H. cbn [get truthy_and_ge] in H.
    rewrite (num_eq_zero_falsy s Hz) in H. discriminate.
Qed.

Lemma zero_never_triggers_witness :
  num_ge (Float neg_zero) (Float (HEAVY_RAIN_THRESHOLD negative_rain_config))
  = true
  /\ ~ In "HEAVY_RAIN"
       (kinds (alerts negative_rain_config
                      (reading None (Some (PyNum (Float neg_zero)))
                               (Some (PyNum (Int 0))))))
  /\ ~ In "STRONG_WIND"
       (kinds (alerts negative_rain_config
                      (reading None (Some (PyNum (Float neg_zero)))
                               (Some (PyNum (Int 0)))))).
Proof.
  split; [vm_compute; reflexivity|].
  pose proof (zero_never_triggers negative_rain_config
                (reading None (Some (PyNum (Float neg_zero)))
                         (Some (PyNum (Int 0))))) as [Hr Hw].
  split.
  - apply (Hr (Float neg_zero)); [reflexivity|vm_compute; reflexivity].
  - apply (Hw (Int 0)); [reflexivity|vm_compute; reflexivity].
Defined.

(** ** The monad *)

Lemma bind_inv {A B} (m : M A) (k : A -> M B) (w : world) (r : result B)
  (w' : world) :
  bind m k w = (r, w') ->
  (exists a w1, m w = (Ret a, w1) /\ k a w1 = (r, w'))
  \/ (exists e, m w = (Raise e, w') /\ r = Raise e).
Proof.
  unfold bind. destruct (m w) as [[a|e] w1]; intros H.
  - left. now exists a, w1.
  - right. exists e. now inversion H.
Qed.

Lemma try_except_inv {A} (body : M A) (handler : exn -> M A) (w : world)
  (r : result A) (w' : world) :
  try_except body handler w = (r, w') ->
  (exists a, body w = (Ret a, w') /\ r = Ret a)
  \/ (exists e w1, body w = (Raise e, w1) /\ handler e w1 = (r, w')).
Proof.
  unfold try_except. destruct (body w) as [[a|e] w1]; intros H.
  - left. exists a. now inversion H.
  - right. now exists e, w1.
Qed.

Lemma attempt_inv {A} (m : M A) (w : world) (r : result (exn + A)) (w' : world) :
  attempt m w = (r, w') ->
  (exists a, m w = (Ret a, w') /\ r = Ret (inr a))
  \/ (exists e, m w = (Raise e, w') /\ r = Ret (inl e)).
Proof.
  unfold attempt. destruct (m w) as [[a|e] w1]; intros H; inversion H; eauto.
Qed.

(** ** What each operation adds to the trace *)

Section EmitsOnly.

Variable p : event -> bool.
Hypothesis p_log : forall text, p (Log_error text) = true.

Lemma emits_ret {A} (a : A) : emits_only p (ret a).
Proof.
  intros w r w' H. inversion H. exists []. now rewrite app_nil_r.
Qed.

Lemma emits_raise {A} (e : exn) : emits_only p (@raise A e).
Proof.
  intros w r w' H. inversion H. exists []. now rewrite app_nil_r.
Qed.

Lemma emits_bind {A B} (m : M A) (k : A -> M B) :
  emits_only p m -> (forall a, emits_only p (k a)) -> emits_only p (bind m k).
Proof.
  intros Hm Hk w r w' H.
  destruct (bind_inv _ _ _ _ _ H) as [(a & w1 & H1 & H2)|(e & H1 & _)].
  - destruct (Hm _ _ _ H1) as (t1 & E1 & P1).
    destruct (Hk a _ _ _ H2) as (t2 & E2 & P2).
    exists (t1 ++ t2). rewrite E2, E1, app_assoc. split; [reflexivity|].
    now rewrite forallb_app, P1, P2.
  - exact (Hm _ _ _ H1).
Qed.

Lemma emits_try_except {A} (body : M A) (handler : exn -> M A) :
  emits_only p body -> (forall e, emits_only p (handler e)) ->
  emits_only p (try_except body handler).
Proof.
  intros Hb Hh w r w' H.
  destruct (try_except_inv _ _ _ _ _ H) as [(a & H1 & _)|(e & w1 & H1 & H2)].
  - exact (Hb _ _ _ H1).
  - destruct (Hb _ _ _ H1) as (t1 & E1 & P1).
    destruct (Hh e _ _ _ H2) as (t2 & E2 & P2).
    exists (t1 ++ t2). rewrite E2, E1, app_assoc. split; [reflexivity|].
    now rewrite forallb_app, P1, P2.
Qed.

Lemma emits_attempt {A} (m : M A) : emits_only p m -> emits_only p (attempt m).
Proof.
  intros Hm w r w' H.
  destruct (attempt_inv _ _ _ _ H) as [(a & H1 & _)|(e & H1 & _)];
    exact (Hm _ _ _ H1).
Qed.

Lemma emits_emit (e : event) : p e = true -> emits_only p (emit e).
Proof.
  intros He w r w' H. inversion H. exists [e]. split; [reflexivity|].
  simpl. now rewrite He.
Qed.

Lemma emits_logger_error (text : string) : emits_only p (logger_error text).
Proof. apply emits_emit, p_log. Qed.

(** A step that does not touch the trace. *)
Lemma emits_silent {A} (m : M A) :
  (forall w, trace (snd (m w)) = trace w) -> emits_only p m.
Proof.
  intros Hm w r w' H. exists []. rewrite app_nil_r. split; [|reflexivity].
  specialize (Hm w). now rewrite H in Hm.
Qed.

Lemma emits_next_db_outcome : emits_only p next_db_outcome.
Proof.
  apply emits_silent. intros w. unfold next_db_outcome.
  now destruct (db_script w).
Qed.

Lemma emits_next_smtp_outcome : emits_only p next_smtp_outcome.
Proof.
  apply emits_silent. intros w. unfold next_smtp_outcome.
  now destruct (smtp_script w).
Qed.

Lemma emits_next_api_outcome : emits_only p next_api_outcome.
Proof.
  apply emits_silent. intros w. unfold next_api_outcome.
  now destruct (api_script w).
Qed.

Lemma emits_Database : emits_only p Database.
Proof. apply emits_silent. reflexivity. Qed.

Lemma emits_execute {A} (o : db_outcome) (effect : world -> A * world) :
  (forall w, trace (snd (effect w)) = trace w) ->
  emits_only p (execute o effect).
Proof.
  intros He. apply emits_silent. intros w. unfold execute.
  destruct (statement_ok o).
  - specialize (He w). now destruct (effect w).
  - now destruct (connection_survives o).
Qed.

Lemma emits_rollback (o : db_outcome) : emits_only p (rollback o).
Proof.
  unfold rollback. destruct (rollback_ok o); [apply emits_ret|apply emits_raise].
Qed.

Lemma emits__get_connection (o : db_outcome) : emits_only p (_get_connection o).
Proof.
  intros w r w'. unfold _get_connection.
  destruct (connection w), (connect_ok o);
    try (intros H; inversion H; exists []; now rewrite app_nil_r);
    apply (emits_bind _ _ (emits_logger_error _) (fun _ => emits_raise _)).
Qed.

Lemma emits_insert_except (o : db_outcome) (conn_bound : bool) (text : string) :
  emits_only p (insert_except o conn_bound text).
Proof.
  unfold insert_except. apply emits_bind; [apply emits_logger_error|intros _].
  destruct conn_bound; [|apply emits_raise].
  apply emits_bind; [apply emits_rollback|intros _; apply emits_ret].
Qed.

Ltac emits_step :=
  first
    [ apply emits_ret | apply emits_raise | apply emits_logger_error
    | apply emits_next_db_outcome | apply emits_next_smtp_outcome
    | apply emits_next_api_outcome | apply emits_Database
    | apply emits_rollback | apply emits__get_connection
    | apply emits_insert_except | apply emits_attempt
    | apply emits_execute; intros; reflexivity
    | apply emits_emit; solve [auto]
    | apply emits_bind; [|intro]
    | apply emits_try_except; [|intro]
    | match goal with
      | |- emits_only _ (match ?x with _ => _ end) => destruct x
      end ].

(** A call traced on entry, followed by a body. *)
Lemma emit_then {A} (e : event) (k : M A) :
  emits_only p k ->
  forall w r w', (emit e ;; k) w = (r, w') ->
    exists t, trace w' = trace w ++ e :: t /\ forallb p t = true.
Proof.
  intros Hk w r w' H.
  destruct (bind_inv _ _ _ _ _ H) as [(a & w1 & H1 & H2)|(x & H1 & _)];
    [|discriminate H1].
  inversion H1; subst w1.
  destruct (Hk _ _ _ H2) as (t & E & P).
  exists t. rewrite E. cbn [trace set_trace]. now rewrite <- app_assoc.
Qed.

Lemma insert_alert_log_trace (type sev : string) (msg : list fpart) (sent : bool)
  (w : world) (r : result bool) (w' : world) :
  insert_alert_log type sev msg sent w = (r, w') ->
  exists t, trace w' = trace w ++ Call_insert_alert_log type sev msg sent :: t
            /\ forallb p t = true.
Proof.
  apply emit_then. repeat emits_step.
Qed.

Lemma get_recent_alerts_trace (type : string) (hours : Z)
  (w : world) (r : result (list alert_log_row)) (w' : world) :
  get_recent_alerts type hours w = (r, w') ->
  exists t, trace w' = trace w ++ Call_get_recent_alerts type hours :: t
            /\ forallb p t = true.
Proof. apply emit_then. repeat emits_step. Qed.

Lemma _send_email_alert_trace (config : Config) (a : alert) (d : weather_data)
  (w : world) (r : result bool) (w' : world) :
  _send_email_alert config a d w = (r, w') ->
  exists t, trace w' = trace w ++ Call_send_email_alert a d :: t
            /\ forallb p t = true.
Proof.
  apply emit_then. repeat emits_step.
Qed.

Lemma emits_test_connection :
  p Call_test_connection = true -> emits_only p test_connection.
Proof. intros Hp. unfold test_connection. repeat emits_step. Qed.

Lemma emits_insert_weather_data (location : string) (latitude longitude : float)
  (d : weather_data) :
  p (Call_insert_weather_data location latitude longitude d) = true ->
  emits_only p (insert_weather_data location latitude longitude d).
Proof.
  intros Hp. unfold insert_weather_data. repeat emits_step.
Qed.

Lemma emits_get_current_weather (latitude longitude : float) :
  p (Call_get_current_weather latitude longitude) = true ->
  emits_only p (get_current_weather latitude longitude).
Proof.
  intros Hp. unfold get_current_weather. repeat emits_step.
  apply emits_silent. reflexivity.
Qed.

Lemma emits_get_recent_alerts (type : string) (hours : Z) :
  p (Call_get_recent_alerts type hours) = true ->
  emits_only p (get_recent_alerts type hours).
Proof. intros Hp. unfold get_recent_alerts. repeat emits_step. Qed.

Lemma emits_insert_alert_log (type sev : string) (msg : list fpart) (sent : bool) :
  p (Call_insert_alert_log type sev msg sent) = true ->
  emits_only p (insert_alert_log type sev msg sent).
Proof.
  intros Hp. unfold insert_alert_log. repeat emits_step.
Qed.

Lemma emits__send_email_alert (config : Config) (a : alert) (d : weather_data) :
  p (Call_send_email_alert a d) = true ->
  emits_only p (_send_email_alert config a d).
Proof.
  intros Hp. unfold _send_email_alert. repeat emits_step.
Qed.

Lemma emits_for_each {A} (l : list A) (body : A -> M unit) :
  (forall x, emits_only p (body x)) -> emits_only p (for_each l body).
Proof.
  intros Hb. induction l as [|x l IH]; cbn [for_each]; repeat emits_step.
  - apply Hb.
  - exact IH.
Qed.

Lemma get_current_weather_trace (latitude longitude : float)
  (w : world) (r : result (option weather_data)) (w' : world) :
  get_current_weather latitude longitude w = (r, w') ->
  exists t, trace w' = trace w ++ Call_get_current_weather latitude longitude :: t
            /\ forallb p t = true.
Proof.
  apply emit_then. repeat emits_step.
  apply emits_silent. reflexivity.
Qed.

Lemma emits_scheduler_start (config : Config) :
  p (Call_scheduler_start (SCHEDULE_INTERVAL_MINUTES config)) = true ->
  emits_only p (scheduler_start config).
Proof.
  intros Hp. unfold scheduler_start. repeat emits_step.
  intros w r w'. destruct (scheduler_fails w).
  - apply (emits_bind _ _ (emits_logger_error _) (fun _ => emits_raise _)).
  - intros H. inversion H. exists []. now rewrite app_nil_r.
Qed.

Section Dispatcher.

Hypothesis p_query : forall type hours, p (Call_get_recent_alerts type hours) = true.
Hypothesis p_send : forall a d, p (Call_send_email_alert a d) = true.
Hypothesis p_insert :
  forall type sev msg sent, p (Call_insert_alert_log type sev msg sent) = true.

Lemma emits__process_alert (config : Config) (a : alert) (d : weather_data) :
  emits_only p (_process_alert config a d).
Proof.
  unfold _process_alert. apply emits_bind; [now apply emits_get_recent_alerts|].
  intros [|row rows].
  - apply emits_bind; [now apply emits__send_email_alert|intros sent].
    apply emits_bind; [now apply emits_insert_alert_log|intros _].
    apply emits_ret.
  - apply emits_bind; [now apply emits_insert_alert_log|intros _].
    apply emits_ret.
Qed.

Lemma emits_check_and_send_alerts (config : Config) (d : weather_data) :
  emits_only p (check_and_send_alerts config d).
Proof.
  unfold check_and_send_alerts. apply emits_for_each. intros a.
  apply emits__process_alert.
Qed.

Hypothesis p_store :
  forall location latitude longitude d,
    p (Call_insert_weather_data location latitude longitude d) = true.

(** A cycle calls the reading source once, on entry; the rest of its trace is
    made of the other calls. *)
Lemma run_pipeline_trace (config : Config) (w : world) (r : result bool)
  (w' : world) :
  run_pipeline config w = (r, w') ->
  exists t,
    trace w' = trace w
               ++ Call_get_current_weather (LATITUDE config) (LONGITUDE config) :: t
    /\ forallb p t = true.
Proof.
  intros H. unfold run_pipeline in H.
  assert (Hbody : forall rb wb,
    (Database ;;
     data <- get_current_weather (LATITUDE config) (LONGITUDE config) ;;
     match data with
     | None => logger_error "Failed to fetch weather data" ;; ret false
     | Some d =>
         if negb (wd_truthy d) then
           logger_error "Failed to fetch weather data" ;; ret false
         else
           success <- insert_weather_data (LOCATION config) (LATITUDE config)
                        (LONGITUDE config) d ;;
           if negb success then
             logger_error "Failed to store weather data" ;; ret false
           else
             check_and_send_alerts config d ;;
             ret true
     end) w = (rb, wb) ->
    exists t,
      trace wb = trace w
                 ++ Call_get_current_weather (LATITUDE config) (LONGITUDE config) :: t
      /\ forallb p t = true).
  { intros rb wb Hb.
    destruct (bind_inv _ _ _ _ _ Hb) as [(u & w0 & Hnew & Hafter)|(e & Hnew & _)];
      [|discriminate Hnew].
    assert (Hw0 : trace w0 = trace w) by (inversion Hnew; reflexivity).
    rewrite <- Hw0. clear Hnew Hw0.
    destruct (bind_inv _ _ _ _ _ Hafter)
      as [(data & w1 & Hfetch & Hrest)|(e & Hfetch & _)].
    - destruct (get_current_weather_trace _ _ _ _ _ Hfetch) as (t1 & T1 & P1).
      assert (Hk : exists t2, trace wb = trace w1 ++ t2 /\ forallb p t2 = true).
      { revert Hrest. generalize wb. generalize rb. generalize w1.
        change (emits_only p
          match data with
          | None => logger_error "Failed to fetch weather data" ;; ret false
          | Some d =>
              if negb (wd_truthy d) then
                logger_error "Failed to fetch weather data" ;; ret false
              else
                success <- insert_weather_data (LOCATION config)
                             (LATITUDE config) (LONGITUDE config) d ;;
                if negb success then
                  logger_error "Failed to store weather data" ;; ret false
                else
                  check_and_send_alerts config d ;;
                  ret true
          end).
        destruct data as [d|]; [|repeat emits_step].
        destruct (negb (wd_truthy d)); [repeat emits_step|].
        apply emits_bind; [now apply emits_insert_weather_data|intros success].
        destruct (negb success); [repeat emits_step|].
        apply emits_bind; [apply emits_check_and_send_alerts|intros _].
        apply emits_ret. }
      destruct Hk as (t2 & T2 & P2).
      exists (t1 ++ t2). rewrite T2, T1.
      rewrite <- app_assoc. cbn [app]. split; [reflexivity|].
      now rewrite forallb_app, P1, P2.
    - exact (get_current_weather_trace _ _ _ _ _ Hfetch). }
  destruct (try_except_inv _ _ _ _ _ H) as [(a & H1 & _)|(e & w1 & H1 & H2)].
  - exact (Hbody _ _ H1).
  - destruct (Hbody _ _ H1) as (t1 & T1 & P1).
    assert (Hh : emits_only p
                   (logger_error "Pipeline execution failed" ;; ret false))
      by repeat emits_step.
    destruct (Hh _ _ _ H2) as (t2 & T2 & P2).
    exists (t1 ++ t2). rewrite T2, T1, <- app_assoc. cbn [app].
    split; [reflexivity|]. now rewrite forallb_app, P1, P2.
Qed.

End Dispatcher.

End EmitsOnly.

(** ** What each operation answers *)

Lemma forallb_not_dispatch (t : list event) :
  forallb not_dispatch_call t = true -> dispatch_calls t = [].
Proof.
  unfold dispatch_calls, not_dispatch_call.
  induction t as [|e t IH]; simpl; [reflexivity|].
  intros H. apply andb_true_iff in H. destruct H as [He Ht].
  destruct (is_dispatch_call e); [discriminate He|]. now apply IH.
Qed.

Lemma forallb_not_cycle (t : list event) :
  forallb not_cycle_call t = true -> cycles t = 0%nat.
Proof.
  unfold cycles, not_cycle_call.
  induction t as [|e t IH]; simpl; [reflexivity|].
  intros H. apply andb_true_iff in H. destruct H as [He Ht].
  destruct (is_cycle_call e); [discriminate He|]. now apply IH.
Qed.

Lemma dispatch_calls_app (t u : list event) :
  dispatch_calls (t ++ u) = dispatch_calls t ++ dispatch_calls u.
Proof. apply filter_app. Qed.

Lemma cycles_app (t u : list event) : cycles (t ++ u) = (cycles t + cycles u)%nat.
Proof. unfold cycles. now rewrite filter_app, length_app. Qed.

(** [get_recent_alerts] never raises: it answers the rows of the window when
    the database call succeeds and the empty list otherwise; it changes
    neither the clock, nor the audit log, nor the SMTP script. *)
Lemma get_recent_alerts_answer (type : string) (hours : Z) (w : world) :
  exists w1,
    get_recent_alerts type hours w = (Ret (query_answer type hours w), w1)
    /\ clock w1 = clock w
    /\ alert_log w1 = alert_log w
    /\ smtp_script w1 = smtp_script w
    /\ (db_call_succeeds w = true -> connection w1 = ConnOpen).
Proof.
  destruct w as [now conn log wt db smtp api sf tr].
  unfold get_recent_alerts, query_answer, db_call_succeeds, connects,
    pending_db_outcome.
  destruct db as [|[c s rb sv] db]; destruct conn; cbn;
    try destruct c; try destruct s; try destruct sv; cbn;
    eexists; repeat split; try reflexivity; intros; discriminate.
Qed.

(** [_send_email_alert] never raises: it answers what the SMTP session
    answers. *)
Lemma _send_email_alert_answer (config : Config) (a : alert) (d : weather_data)
  (w : world) :
  exists w1,
    _send_email_alert config a d w = (Ret (pending_smtp_outcome w), w1).
Proof.
  destruct w as [now conn log wt db smtp api sf tr].
  unfold _send_email_alert, pending_smtp_outcome.
  destruct smtp as [|[] smtp]; cbn; eexists; reflexivity.
Qed.

(** When the database call succeeds, [insert_alert_log] answers [True] and
    appends the row, stamped with the current time. *)
Lemma insert_alert_log_success (type sev : string) (msg : list fpart)
  (sent : bool) (w : world) :
  db_call_succeeds w = true ->
  exists w',
    insert_alert_log type sev msg sent w = (Ret true, w')
    /\ alert_log w' = alert_log w ++ [mkLogRow (clock w) type sev msg sent].
Proof.
  destruct w as [now conn log wt db smtp api sf tr].
  unfold insert_alert_log, db_call_succeeds, connects, pending_db_outcome.
  destruct db as [|[c s rb sv] db]; destruct conn; cbn;
    try destruct c; try destruct s; cbn; intros H; try discriminate H;
    eexists; split; reflexivity.
Qed.

(** When no connection can be obtained, [insert_alert_log] does not answer
    [False]: its [except] clause reads the unbound [conn] and the method
    raises [UnboundLocalError]. *)
Lemma insert_alert_log_unreachable (type sev : string) (msg : list fpart)
  (sent : bool) (w : world) :
  connects w = false ->
  exists w', insert_alert_log type sev msg sent w = (Raise UnboundLocalError, w').
Proof.
  destruct w as [now conn log wt db smtp api sf tr].
  unfold insert_alert_log, connects, pending_db_outcome.
  destruct db as [|[c s rb sv] db]; destruct conn; cbn;
    try destruct c; cbn; intros H; try discriminate H;
    eexists; reflexivity.
Qed.

(** The same slip in [insert_weather_data]. *)
Lemma insert_weather_data_unreachable (location : string)
  (latitude longitude : float) (d : weather_data) (w : world) :
  connects w = false ->
  exists w',
    insert_weather_data location latitude longitude d w
    = (Raise UnboundLocalError, w').
Proof.
  destruct w as [now conn log wt db smtp api sf tr].
  unfold insert_weather_data, connects, pending_db_outcome.
  destruct db as [|[c s rb sv] db]; destruct conn; cbn;
    try destruct c; cbn; intros H; try discriminate H;
    eexists; reflexivity.
Qed.

(** When a connection is obtained, [insert_alert_log] answers a boolean
    unless the rollback itself fails. *)
Lemma insert_alert_log_connected (type sev : string) (msg : list fpart)
  (sent : bool) (w : world) :
  connects w = true ->
  exists w',
    insert_alert_log type sev msg sent w
    = (if statement_ok (pending_db_outcome w) then Ret true
       else if rollback_ok (pending_db_outcome w) then Ret false
       else Raise DatabaseError, w').
Proof.
  destruct w as [now conn log wt db smtp api sf tr].
  unfold insert_alert_log, connects, pending_db_outcome.
  destruct db as [|[c s rb sv] db]; destruct conn; cbn;
    try destruct c; try destruct s; try destruct rb; try destruct sv; cbn;
    intros H; try discriminate H; eexists; reflexivity.
Qed.

(** ** The cooldown query *)

Lemma insert_desc_not_nil (r : alert_log_row) (l : list alert_log_row) :
  insert_desc r l <> [].
Proof.
  destruct l as [|x l]; simpl; [discriminate|].
  destruct (timestamp x <=? timestamp r); discriminate.
Qed.

Lemma order_by_timestamp_desc_nil (l : list alert_log_row) :
  order_by_timestamp_desc l = [] <-> l = [].
Proof.
  destruct l as [|x l]; simpl; split; auto; intros H.
  - now apply insert_desc_not_nil in H.
  - discriminate H.
Qed.

Lemma insert_desc_length (r : alert_log_row) (l : list alert_log_row) :
  length (insert_desc r l) = S (length l).
Proof.
  induction l as [|x l IH]; simpl; [reflexivity|].
  destruct (timestamp x <=? timestamp r); simpl; congruence.
Qed.

(** Ordering keeps every row. *)
Lemma order_by_timestamp_desc_length (l : list alert_log_row) :
  length (order_by_timestamp_desc l) = length l.
Proof.
  induction l as [|x l IH]; simpl; [reflexivity|].
  now rewrite insert_desc_length, IH.
Qed.

Lemma recent_row_iff (now : Z) (type : string) (hours : Z) (r : alert_log_row) :
  recent_row now type hours r = true
  <-> row_alert_type r = type
      /\ now - hours * microseconds_per_hour < timestamp r.
Proof.
  unfold recent_row. rewrite andb_true_iff, String.eqb_eq, Z.ltb_lt. tauto.
Qed.

(** The query answers a non-empty list exactly when the log holds a row of the
    kind whose timestamp is later than [now - hours]. *)
Lemma select_recent_alerts_not_nil (now : Z) (type : string) (hours : Z)
  (table : list alert_log_row) :
  select_recent_alerts now type hours table <> []
  <-> exists r, In r table /\ row_alert_type r = type
                /\ now - hours * microseconds_per_hour < timestamp r.
Proof.
  unfold select_recent_alerts. rewrite order_by_timestamp_desc_nil. split.
  - intros H.
    destruct (filter (recent_row now type hours) table) as [|r l] eqn:E;
      [now elim H|].
    assert (Hr : In r (filter (recent_row now type hours) table))
      by (rewrite E; now left).
    apply filter_In in Hr. destruct Hr as [Hin Hrec].
    apply recent_row_iff in Hrec. now exists r.
  - intros (r & Hin & Ht & Hlt) E.
    assert (Hr : In r (filter (recent_row now type hours) table)).
    { apply filter_In. split; [exact Hin|]. now apply recent_row_iff. }
    rewrite E in Hr. exact Hr.
Qed.

(** ** The dispatcher *)

Lemma then_ret_inv {A} (m : M A) (w : world) (r : result unit) (w' : world) :
  (m ;; ret tt) w = (r, w') -> exists r0, m w = (r0, w').
Proof.
  intros H.
  destruct (bind_inv _ _ _ _ _ H) as [(a & w1 & H1 & H2)|(e & H1 & _)].
  - inversion H2; subst w1. now exists (Ret a).
  - now exists (Raise e).
Qed.

Lemma not_dispatch_log (text : string) : not_dispatch_call (Log_error text) = true.
Proof. reflexivity. Qed.

(** One run of [_process_alert] makes exactly one call to [insert_alert_log],
    whatever happens: under cooldown it is the only dispatcher call and its
    flag is [False]; otherwise it follows the call to the notifier and its
    flag is the notifier's answer. *)
Lemma _process_alert_calls (config : Config) (a : alert) (d : weather_data)
  (w : world) :
  dispatch_calls (trace (snd (_process_alert config a d w)))
  = dispatch_calls (trace w)
    ++ match query_answer (alert_type a) (ALERT_COOLDOWN_HOURS config) w with
       | [] => [Call_send_email_alert a d;
                insert_call_of a (pending_smtp_outcome w)]
       | _ :: _ => [insert_call_of a false]
       end.
Proof.
  destruct (_process_alert config a d w) as [r w'] eqn:H. cbn [snd].
  unfold _process_alert in H.
  destruct (get_recent_alerts_answer (alert_type a)
              (ALERT_COOLDOWN_HOURS config) w)
    as (w1 & E & _ & _ & Hsmtp & _).
  destruct (get_recent_alerts_trace not_dispatch_call not_dispatch_log _ _ _ _ _ E)
    as (t1 & T1 & P1).
  assert (D1 : dispatch_calls (trace w1) = dispatch_calls (trace w)).
  { rewrite T1, dispatch_calls_app. cbn.
    fold (dispatch_calls t1).
    now rewrite (forallb_not_dispatch _ P1), app_nil_r. }
  unfold bind at 1 in H. rewrite E in H.
  destruct (query_answer (alert_type a) (ALERT_COOLDOWN_HOURS config) w)
    as [|row rows].
  - destruct (_send_email_alert_answer config a d w1) as (w2 & E2).
    destruct (_send_email_alert_trace not_dispatch_call not_dispatch_log
                _ _ _ _ _ _ E2) as (t2 & T2 & P2).
    unfold bind at 1 in H. rewrite E2 in H.
    apply then_ret_inv in H. destruct H as (r0 & H).
    destruct (insert_alert_log_trace not_dispatch_call not_dispatch_log
                _ _ _ _ _ _ _ H) as (t3 & T3 & P3).
    rewrite T3, T2, !dispatch_calls_app. cbn.
    fold (dispatch_calls t2). fold (dispatch_calls t3).
    rewrite (forallb_not_dispatch _ P2), (forallb_not_dispatch _ P3), D1.
    unfold pending_smtp_outcome. rewrite Hsmtp.
    now rewrite <- app_assoc.
  - apply then_ret_inv in H. destruct H as (r0 & H).
    destruct (insert_alert_log_trace not_dispatch_call not_dispatch_log
                _ _ _ _ _ _ _ H) as (t3 & T3 & P3).
    rewrite T3, dispatch_calls_app. cbn. fold (dispatch_calls t3).
    now rewrite (forallb_not_dispatch _ P3), D1.
Qed.

Lemma query_answer_not_nil (type : string) (hours : Z) (w : world) :
  query_answer type hours w <> [] -> db_call_succeeds w = true.
Proof.
  unfold query_answer. destruct (db_call_succeeds w); [reflexivity|].
  intros H. now elim H.
Qed.

(** C2: when the cooldown query answers a non-empty list, the dispatcher does
    not call the notifier and makes one call to [insert_alert_log], with
    [email_sent=False]; when that insert's statement succeeds, the audit log
    gains exactly that row. *)
Theorem cooldown_active_skips_notifier
  (config : Config) (a : alert) (d : weather_data) (w : world)
  (rows : list alert_log_row) (w1 : world) :
  get_recent_alerts (alert_type a) (ALERT_COOLDOWN_HOURS config) w
  = (Ret rows, w1) ->
  rows <> [] ->
  dispatch_calls (trace (snd (_process_alert config a d w)))
  = dispatch_calls (trace w) ++ [insert_call_of a false]
  /\ (statement_ok (pending_db_outcome w1) = true ->
      fst (_process_alert config a d w) = Ret tt
      /\ alert_log (snd (_process_alert config a d w))
         = alert_log w
           ++ [mkLogRow (clock w) (alert_type a) (severity a) (message a) false]).
Proof.
  intros Hq Hrows.
  destruct (get_recent_alerts_answer (alert_type a)
              (ALERT_COOLDOWN_HOURS config) w)
    as (w1' & E & Hclock & Hlog & _ & Hconn).
  rewrite E in Hq. inversion Hq; subst rows w1'. clear Hq.
  split.
  - rewrite _process_alert_calls.
    destruct (query_answer _ _ w); [now elim Hrows|reflexivity].
  - intros Hs.
    specialize (Hconn (query_answer_not_nil _ _ _ Hrows)).
    assert (Hok : db_call_succeeds w1 = true).
    { unfold db_call_succeeds, connects. now rewrite Hconn, Hs. }
    destruct (insert_alert_log_success (alert_type a) (severity a) (message a)
                false w1 Hok) as (w2 & E2 & L2).
    assert (Hrun : _process_alert config a d w = (Ret tt, w2)).
    { unfold _process_alert, bind at 1. rewrite E.
      destruct (query_answer _ _ w); [now elim Hrows|].
      unfold bind, ret. now rewrite E2. }
    rewrite Hrun. cbn [fst snd].
    split; [reflexivity|]. now rewrite L2, Hlog, Hclock.
Qed.

(** A log with one HEAVY_RAIN entry, stamped one hour before now. *)
Lemma cooldown_active_skips_notifier_witness :
  dispatch_calls
    (trace (snd (_process_alert default_config
                   (heavy_rain_alert default_config (PyNum (Int 15))) test_data
                   (world_at microseconds_per_hour
                      [mkLogRow 0 "HEAVY_RAIN" "HIGH" [] true] [] [] []))))
  = [insert_call_of (heavy_rain_alert default_config (PyNum (Int 15))) false].
Proof.
  refine (proj1 (cooldown_active_skips_notifier default_config
                   (heavy_rain_alert default_config (PyNum (Int 15))) test_data
                   (world_at microseconds_per_hour
                      [mkLogRow 0 "HEAVY_RAIN" "HIGH" [] true] [] [] [])
                   _ _ _ _)).
  - vm_compute. reflexivity.
  - discriminate.
Defined.

(** C8: when the cooldown query fails (no connection can be obtained, or the
    statement fails), [get_recent_alerts] answers the empty list and the
    dispatcher calls the notifier, whatever the audit log holds. *)
Theorem failed_query_notifies
  (config : Config) (a : alert) (d : weather_data) (w : world) :
  db_call_succeeds w = false ->
  fst (get_recent_alerts (alert_type a) (ALERT_COOLDOWN_HOURS config) w) = Ret []
  /\ dispatch_calls (trace (snd (_process_alert config a d w)))
     = dispatch_calls (trace w)
       ++ [Call_send_email_alert a d; insert_call_of a (pending_smtp_outcome w)].
Proof.
  intros Hf.
  assert (Hq : query_answer (alert_type a) (ALERT_COOLDOWN_HOURS config) w = [])
    by (unfold query_answer; now rewrite Hf).
  split.
  - destruct (get_recent_alerts_answer (alert_type a)
                (ALERT_COOLDOWN_HOURS config) w) as (w1 & E & _).
    now rewrite E, Hq.
  - now rewrite _process_alert_calls, Hq.
Qed.

(** The statement of the query fails while the log holds a HEAVY_RAIN entry
    one hour old: the notifier is called. *)
Lemma failed_query_notifies_witness :
  fst (get_recent_alerts "HEAVY_RAIN" 6
         (world_at microseconds_per_hour
            [mkLogRow 0 "HEAVY_RAIN" "HIGH" [] true]
            [db_statement_fails] [true] []))
  = Ret []
  /\ dispatch_calls
       (trace (snd (_process_alert default_config
                      (heavy_rain_alert default_config (PyNum (Int 15)))
                      test_data
                      (world_at microseconds_per_hour
                         [mkLogRow 0 "HEAVY_RAIN" "HIGH" [] true]
                         [db_statement_fails] [true] []))))
     = [Call_send_email_alert
          (heavy_rain_alert default_config (PyNum (Int 15))) test_data;
        insert_call_of (heavy_rain_alert default_config (PyNum (Int 15))) true].
Proof.
  apply (failed_query_notifies default_config
           (heavy_rain_alert default_config (PyNum (Int 15))) test_data
           (world_at microseconds_per_hour
              [mkLogRow 0 "HEAVY_RAIN" "HIGH" [] true]
              [db_statement_fails] [true] [])).
  reflexivity.
Defined.

(** C6: with a working cooldown query and a prior log entry of the alert's
    kind at time [T], a dispatch at any time strictly before [T + H] does not
    call the notifier and records [email_sent=False]; when that entry is the
    latest of its kind, a dispatch at [T + H] or later calls the notifier: an
    entry exactly [H] hours old no longer suppresses. *)
Theorem cooldown_window
  (config : Config) (a : alert) (d : weather_data) (w : world) (T : Z) :
  db_call_succeeds w = true ->
  (exists row, In row (alert_log w) /\ row_alert_type row = alert_type a
               /\ timestamp row = T) ->
  (clock w < T + ALERT_COOLDOWN_HOURS config * microseconds_per_hour ->
   dispatch_calls (trace (snd (_process_alert config a d w)))
   = dispatch_calls (trace w) ++ [insert_call_of a false])
  /\ (T + ALERT_COOLDOWN_HOURS config * microseconds_per_hour <= clock w ->
      (forall row, In row (alert_log w) -> row_alert_type row = alert_type a ->
                   timestamp row <= T) ->
      dispatch_calls (trace (snd (_process_alert config a d w)))
      = dispatch_calls (trace w)
        ++ [Call_send_email_alert a d;
            insert_call_of a (pending_smtp_outcome w)]).
Proof.
  intros Hok (row & Hin & Hkind & Htime).
  rewrite !_process_alert_calls. unfold query_answer. rewrite Hok.
  split.
  - intros Hlt.
    destruct (select_recent_alerts (clock w) (alert_type a)
                (ALERT_COOLDOWN_HOURS config) (alert_log w)) eqn:E;
      [|reflexivity].
    exfalso. revert E. apply select_recent_alerts_not_nil.
    exists row. repeat split; auto. lia.
  - intros Hge Hlatest.
    destruct (select_recent_alerts (clock w) (alert_type a)
                (ALERT_COOLDOWN_HOURS config) (alert_log w)) eqn:E;
      [reflexivity|].
    exfalso.
    assert (Hne : select_recent_alerts (clock w) (alert_type a)
                    (ALERT_COOLDOWN_HOURS config) (alert_log w) <> [])
      by (rewrite E; discriminate).
    apply select_recent_alerts_not_nil in Hne.
    destruct Hne as (r & Hr & Hk & Hlt).
    specialize (Hlatest r Hr Hk). lia.
Qed.

(** A HEAVY_RAIN entry at time 0 and a cooldown of 6 hours: one microsecond
    before the sixth hour the dispatch is suppressed, at the sixth hour
    exactly it notifies. *)
Lemma cooldown_window_witness :
  dispatch_calls
    (trace (snd (_process_alert default_config
                   (heavy_rain_alert default_config (PyNum (Int 15))) test_data
                   (world_at (6 * microseconds_per_hour - 1)
                      [mkLogRow 0 "HEAVY_RAIN" "HIGH" [] true] [] [] []))))
  = [insert_call_of (heavy_rain_alert default_config (PyNum (Int 15))) false]
  /\ dispatch_calls
       (trace (snd (_process_alert default_config
                      (heavy_rain_alert default_config (PyNum (Int 15)))
                      test_data
                      (world_at (6 * microseconds_per_hour)
                         [mkLogRow 0 "HEAVY_RAIN" "HIGH" [] true] [] [] []))))
     = [Call_send_email_alert
          (heavy_rain_alert default_config (PyNum (Int 15))) test_data;
        insert_call_of (heavy_rain_alert default_config (PyNum (Int 15))) true].
Proof.
  split.
  - apply (proj1 (cooldown_window default_config
                    (heavy_rain_alert default_config (PyNum (Int 15))) test_data
                    (world_at (6 * microseconds_per_hour - 1)
                       [mkLogRow 0 "HEAVY_RAIN" "HIGH" [] true] [] [] [])
                    0 eq_refl
                    (ex_intro _ (mkLogRow 0 "HEAVY_RAIN" "HIGH" [] true)
                       (conj (or_introl eq_refl) (conj eq_refl eq_refl))))).
    reflexivity.
  - apply (proj2 (cooldown_window default_config
                    (heavy_rain_alert default_config (PyNum (Int 15))) test_data
                    (world_at (6 * microseconds_per_hour)
                       [mkLogRow 0 "HEAVY_RAIN" "HIGH" [] true] [] [] [])
                    0 eq_refl
                    (ex_intro _ (mkLogRow 0 "HEAVY_RAIN" "HIGH" [] true)
                       (conj (or_introl eq_refl) (conj eq_refl eq_refl))))).
    + cbn. discriminate.
    + intros row [Hrow|[]] _. subst row. cbn. lia.
Defined.

(** ** The pipeline cycle *)

(** C9: when the fetch gives no reading, [run_pipeline] answers [False]
    without raising; it has called the reading source and reported the
    failure, and nothing else: no reading is stored, no cooldown query, no
    notifier call and no audit insert is made, and both tables are as
    before. *)
Theorem fetch_failure_aborts_cycle (config : Config) (w : world) :
  fetch_fails w = true ->
  fst (run_pipeline config w) = Ret false
  /\ trace (snd (run_pipeline config w))
     = trace w
       ++ [Call_get_current_weather (LATITUDE config) (LONGITUDE config);
           Log_error (fetch_error_text w);
           Log_error "Failed to fetch weather data"]
  /\ weather_table (snd (run_pipeline config w)) = weather_table w
  /\ alert_log (snd (run_pipeline config w)) = alert_log w.
Proof.
  destruct w as [now conn log wt db smtp api sf tr].
  unfold fetch_fails, fetch_error_text, run_pipeline, get_current_weather,
    try_except, bind, Database, logger_error, emit, next_api_outcome, ret.
  cbn [api_script].
  destruct api as [|[| |status_code current] api]; cbn;
    try (intros _; rewrite <- !app_assoc; repeat split; reflexivity).
  destruct (status_code =? 200); cbn; intros H; [discriminate H|].
  rewrite <- !app_assoc. repeat split; reflexivity.
Qed.

Lemma fetch_failure_aborts_cycle_witness :
  fst (run_pipeline default_config
         (world_at 0 [] [] [] [ApiResponse 503 (mkCurrent None None None None None)]))
  = Ret false
  /\ trace (snd (run_pipeline default_config
                   (world_at 0 [] [] []
                      [ApiResponse 503 (mkCurrent None None None None None)])))
     = [Call_get_current_weather (LATITUDE default_config)
          (LONGITUDE default_config);
        Log_error "API request failed";
        Log_error "Failed to fetch weather data"].
Proof.
  pose proof (fetch_failure_aborts_cycle default_config
                (world_at 0 [] [] []
                   [ApiResponse 503 (mkCurrent None None None None None)])
                eq_refl) as (Hr & Ht & _).
  split; [exact Hr|exact Ht].
Defined.

(** ** Start-up *)

Lemma not_cycle_log (text : string) : not_cycle_call (Log_error text) = true.
Proof. reflexivity. Qed.

(** [test_connection] never raises: it answers whether the database call
    succeeded. *)
Lemma test_connection_answer (w : world) :
  exists w1, test_connection w = (Ret (db_call_succeeds w), w1).
Proof.
  destruct w as [now conn log wt db smtp api sf tr].
  unfold test_connection, db_call_succeeds, connects, pending_db_outcome.
  destruct db as [|[c s rb sv] db]; destruct conn; cbn;
    try destruct c; try destruct s; try destruct sv; cbn;
    eexists; reflexivity.
Qed.

(** Every run of [run_pipeline] starts exactly one cycle. *)
Lemma run_pipeline_cycles (config : Config) (w : world) :
  cycles (trace (snd (run_pipeline config w))) = (cycles (trace w) + 1)%nat.
Proof.
  destruct (run_pipeline config w) as [r w'] eqn:H. cbn [snd].
  destruct (run_pipeline_trace not_cycle_call not_cycle_log
              (fun _ _ => eq_refl) (fun _ _ => eq_refl)
              (fun _ _ _ _ => eq_refl) (fun _ _ _ _ => eq_refl)
              config w r w' H) as (t & T & P).
  rewrite T, cycles_app. change (cycles (_ :: t)) with (S (cycles t)).
  rewrite (forallb_not_cycle _ P). lia.
Qed.

(** C7, as amended: start-up does not check the order of the temperature
    thresholds.  [Config.validate] answers the same whatever the thresholds
    (and [main] does not call it); for every configuration, [main] runs the
    initial pipeline cycle whenever the database connection test passes, and
    stops before any cycle only when that test fails. *)
Theorem startup_ignores_threshold_order (config : Config) (w : world) :
  (forall rain wind low high : float,
     validate (with_thresholds config rain wind low high) = validate config)
  /\ (db_call_succeeds (set_connection NoConnection w) = true ->
      cycles (trace (snd (main config w))) = (cycles (trace w) + 1)%nat)
  /\ (db_call_succeeds (set_connection NoConnection w) = false ->
      fst (main config w) = Ret tt
      /\ cycles (trace (snd (main config w))) = cycles (trace w)).
Proof.
  split; [reflexivity|].
  destruct (test_connection_answer (set_connection NoConnection w))
    as (w1 & E).
  assert (C1 : cycles (trace w1) = cycles (trace w)).
  { destruct (emits_test_connection not_cycle_call not_cycle_log eq_refl
                _ _ _ E) as (t & T & P).
    rewrite T, cycles_app, (forallb_not_cycle _ P). cbn [trace set_connection].
    lia. }
  assert (Hmain : main config w
                  = (if negb (db_call_succeeds (set_connection NoConnection w))
                     then logger_error
                            "Database connection failed. Please check configuration."
                     else run_pipeline config ;; scheduler_start config) w1).
  { unfold main, bind at 1, Database. unfold bind at 1. now rewrite E. }
  rewrite Hmain. split; intros Hc; rewrite Hc; cbn [negb].
  - destruct ((run_pipeline config ;; scheduler_start config) w1)
      as [r w3] eqn:H. cbn [snd].
    pose proof (run_pipeline_cycles config w1) as C2.
    destruct (bind_inv _ _ _ _ _ H) as [(b & w2 & H1 & H2)|(e & H1 & _)].
    + rewrite H1 in C2. cbn [snd] in C2.
      destruct (emits_scheduler_start not_cycle_call not_cycle_log config
                  eq_refl _ _ _ H2) as (t & T & P).
      rewrite T, cycles_app, (forallb_not_cycle _ P). lia.
    + rewrite H1 in C2. cbn [snd] in C2. lia.
  - split; [reflexivity|].
    unfold logger_error, emit. cbn [snd trace set_trace].
    rewrite cycles_app. cbn. lia.
Qed.

(** The thresholds are inverted (low 40, high 35), the database answers and
    the reading source reports 37 degrees: the initial cycle runs. *)
Lemma startup_ignores_threshold_order_witness :
  cycles
    (trace (snd (main inverted_config
                   (world_at 0 [] [] []
                      [ApiResponse 200
                         (mkCurrent (Some (PyNum (Int 37))) None None None None)]))))
  = 1%nat.
Proof.
  apply (proj1 (proj2 (startup_ignores_threshold_order inverted_config
                         (world_at 0 [] [] []
                            [ApiResponse 200
                               (mkCurrent (Some (PyNum (Int 37))) None None
                                  None None)])))).
  reflexivity.
Defined.

(** C7, as stated, fails: with the low-temperature threshold (40) above the
    high one (35), [main] returns normally after running the initial cycle
    and starting the scheduler; the cycle even records an EXTREME_COLD alert
    for a reading of 37 degrees. *)
Lemma inverted_thresholds_start_a_cycle :
  num_ge (Float (EXTREME_TEMP_LOW inverted_config))
         (Float (EXTREME_TEMP_HIGH inverted_config)) = true
  /\ fst (main inverted_config
            (world_at 0 [] [] []
               [ApiResponse 200
                  (mkCurrent (Some (PyNum (Int 37))) None None None None)]))
     = Ret tt
  /\ cycles
       (trace (snd (main inverted_config
                      (world_at 0 [] [] []
                         [ApiResponse 200
                            (mkCurrent (Some (PyNum (Int 37))) None None None
                               None)]))))
     = 1%nat
  /\ map row_alert_type
       (alert_log (snd (main inverted_config
                          (world_at 0 [] [] []
                             [ApiResponse 200
                                (mkCurrent (Some (PyNum (Int 37))) None None
                                   None None)]))))
     = ["EXTREME_COLD"].
Proof. vm_compute. repeat split; reflexivity. Qed.

(** ** Audit completeness *)

Lemma insert_calls_dispatch (t : list event) :
  insert_calls t = filter is_insert_call (dispatch_calls t).
Proof.
  unfold insert_calls, dispatch_calls.
  induction t as [|e t IH]; simpl; [reflexivity|].
  destruct e; simpl; now rewrite IH.
Qed.

(** One run of [_process_alert] adds exactly one audit call, for its alert. *)
Lemma _process_alert_inserts (config : Config) (a : alert) (d : weather_data)
  (w : world) :
  exists sent,
    insert_calls (trace (snd (_process_alert config a d w)))
    = insert_calls (trace w) ++ [insert_call_of a sent].
Proof.
  rewrite (insert_calls_dispatch (trace w)).
  rewrite (insert_calls_dispatch (trace (snd (_process_alert config a d w)))).
  rewrite _process_alert_calls, filter_app.
  destruct (query_answer _ _ w).
  - now exists (pending_smtp_outcome w).
  - now exists false.
Qed.

Lemma for_each_process_alert_audit (config : Config) (d : weather_data)
  (l : list alert) :
  forall w w',
    for_each l (fun a => _process_alert config a d) w = (Ret tt, w') ->
    exists t,
      insert_calls (trace w') = insert_calls (trace w) ++ t
      /\ map recorded_alert t = map alert_key l.
Proof.
  induction l as [|a l IH]; intros w w' H.
  - inversion H. exists []. now rewrite app_nil_r.
  - cbn [for_each] in H.
    destruct (bind_inv _ _ _ _ _ H) as [(u & w1 & H1 & H2)|(e & _ & He)];
      [|discriminate He].
    destruct (_process_alert_inserts config a d w) as (sent & Hs).
    rewrite H1 in Hs. cbn [snd] in Hs.
    destruct (IH _ _ H2) as (t & Ht & Hk).
    exists (insert_call_of a sent :: t). split.
    + rewrite Ht, Hs, <- app_assoc. reflexivity.
    + cbn [map]. now rewrite Hk.
Qed.

(** When the loop of [check_and_send_alerts] runs to its end, the audit calls
    it made are one per alert returned by the evaluation, in order. *)
Lemma check_and_send_alerts_audit (config : Config) (d : weather_data)
  (w w' : world) :
  check_and_send_alerts config d w = (Ret tt, w') ->
  exists t,
    insert_calls (trace w') = insert_calls (trace w) ++ t
    /\ map recorded_alert t = map alert_key (alerts config d).
Proof. apply for_each_process_alert_audit. Qed.

(** The third end-to-end scenario: the same HEAVY_RAIN alert dispatched twice
    within the cooldown window; the second dispatch records
    [email_sent=False] and does not call the notifier. *)
Example scenario_dispatched_twice :
  map email_sent
    (alert_log
       (snd ((_process_alert default_config
                (heavy_rain_alert default_config (PyNum (Int 15))) test_data ;;
              _process_alert default_config
                (heavy_rain_alert default_config (PyNum (Int 15))) test_data)
               (world_at 0 [] [] [] []))))
  = [true; false]
  /\ length
       (filter is_dispatch_call
          (trace
             (snd ((_process_alert default_config
                      (heavy_rain_alert default_config (PyNum (Int 15)))
                      test_data ;;
                    _process_alert default_config
                      (heavy_rain_alert default_config (PyNum (Int 15)))
                      test_data)
                     (world_at 0 [] [] [] [])))))
     = 3%nat.
Proof. vm_compute. split; reflexivity. Qed.

(** C1 fails on the code.  The reading of [test_alert.py] yields HEAVY_RAIN
    and STRONG_WIND; the database cannot be reached.  The cooldown query
    answers the empty list, the HEAVY_RAIN e-mail is sent, and
    [insert_alert_log] raises [UnboundLocalError] from its [except] clause:
    the loop is left, no row is stored, and STRONG_WIND gets neither a
    notifier call nor an audit call. *)
Theorem audit_lost_when_database_unreachable :
  kinds (alerts default_config test_data) = ["HEAVY_RAIN"; "STRONG_WIND"]
  /\ fst (check_and_send_alerts default_config test_data
            (world_at 0 [] [db_unreachable; db_unreachable] [true] []))
     = Raise UnboundLocalError
  /\ dispatch_calls
       (trace (snd (check_and_send_alerts default_config test_data
                      (world_at 0 [] [db_unreachable; db_unreachable] [true] []))))
     = [Call_send_email_alert
          (heavy_rain_alert default_config (PyNum (Int 15))) test_data;
        insert_call_of (heavy_rain_alert default_config (PyNum (Int 15))) true]
  /\ alert_log
       (snd (check_and_send_alerts default_config test_data
               (world_at 0 [] [db_unreachable; db_unreachable] [true] [])))
     = [].
Proof. vm_compute. repeat split; reflexivity. Qed.

(** The same loss inside a full cycle: the reading is stored, the connection
    drops during the cooldown query and cannot be reopened; the cycle ends in
    the handler of [run_pipeline] with one e-mail sent and no audit row. *)
Example audit_lost_inside_a_cycle :
  fst (run_pipeline default_config
         (world_at 0 [] [db_fine; db_connection_lost; db_unreachable] [true]
            [ApiResponse 200
               (mkCurrent (Some (PyNum (Int 30))) (Some (PyNum (Int 15)))
                  (Some (PyNum (Int 60))) (Some (PyNum (Int 85))) None)]))
  = Ret false
  /\ map recorded_alert
       (dispatch_calls
          (trace (snd (run_pipeline default_config
                         (world_at 0 []
                            [db_fine; db_connection_lost; db_unreachable] [true]
                            [ApiResponse 200
                               (mkCurrent (Some (PyNum (Int 30)))
                                  (Some (PyNum (Int 15))) (Some (PyNum (Int 60)))
                                  (Some (PyNum (Int 85))) None)])))))
     = [None; alert_key (heavy_rain_alert default_config (PyNum (Int 15)))]
  /\ alert_log
       (snd (run_pipeline default_config
               (world_at 0 [] [db_fine; db_connection_lost; db_unreachable]
                  [true]
                  [ApiResponse 200
                     (mkCurrent (Some (PyNum (Int 30))) (Some (PyNum (Int 15)))
                        (Some (PyNum (Int 60))) (Some (PyNum (Int 85))) None)])))
     = [].
Proof. vm_compute. repeat split; reflexivity. Qed.

(** * Further properties *)

(** ** The other rules of the evaluation *)

(** X1: for a reading whose wind speed is a number, a STRONG_WIND alert of
    severity HIGH is returned if and only if the wind speed is non-zero and
    greater than or equal to the strong-wind threshold. *)
Theorem strong_wind_iff_nonzero_and_ge
  (config : Config) (w : weather_data) (s : num) :
  wd_wind_speed w = Some (PyNum s) ->
  triggers "STRONG_WIND" "HIGH" (alerts config w)
  <-> truthy (PyNum s) = true
      /\ num_ge s (Float (STRONG_WIND_THRESHOLD config)) = true.
Proof.
  intros Hs. split.
  - intros H. apply triggers_kinds, strong_wind_in_kinds in H.
    rewrite Hs in H. cbn [get truthy_and_ge] in H.
    now apply andb_true_iff in H.
  - intros [Ht Hge].
    exists (strong_wind_alert config (PyNum s)). repeat split.
    unfold alerts, wind_alerts. rewrite Hs. cbn [get truthy_and_ge].
    rewrite Ht, Hge. cbn [andb].
    apply in_or_app. right. apply in_or_app. left. now left.
Qed.

Lemma strong_wind_iff_nonzero_and_ge_witness :
  triggers "STRONG_WIND" "HIGH" (alerts default_config test_data)
  <-> truthy (PyNum (Int 60)) = true
      /\ num_ge (Int 60) (Float (STRONG_WIND_THRESHOLD default_config)) = true.
Proof.
  exact (strong_wind_iff_nonzero_and_ge default_config test_data (Int 60)
           eq_refl).
Defined.

(** X2: for a reading whose temperature is a number, EXTREME_COLD (severity
    MEDIUM) is returned exactly when the temperature is at or below the low
    threshold, and EXTREME_HEAT (severity HIGH) exactly when it is not and
    the temperature is at or above the high threshold.  Zero is a
    temperature like any other: the test is [is not None], not
    truthiness. *)
Theorem temperature_rules (config : Config) (w : weather_data) (t : num) :
  wd_temperature w = Some (PyNum t) ->
  (triggers "EXTREME_COLD" "MEDIUM" (alerts config w)
   <-> num_le t (Float (EXTREME_TEMP_LOW config)) = true)
  /\ (triggers "EXTREME_HEAT" "HIGH" (alerts config w)
      <-> num_le t (Float (EXTREME_TEMP_LOW config)) = false
          /\ num_ge t (Float (EXTREME_TEMP_HIGH config)) = true).
Proof.
  intros Ht.
  assert (Hk : kinds (temperature_alerts config w)
               = if num_le t (Float (EXTREME_TEMP_LOW config))
                 then ["EXTREME_COLD"]
                 else if num_ge t (Float (EXTREME_TEMP_HIGH config))
                 then ["EXTREME_HEAT"] else []).
  { rewrite kinds_temperature_alerts. unfold get_or_none. now rewrite Ht. }
  assert (Ha : temperature_alerts config w
               = if num_le t (Float (EXTREME_TEMP_LOW config))
                 then [extreme_cold_alert config (PyNum t)]
                 else if num_ge t (Float (EXTREME_TEMP_HIGH config))
                 then [extreme_heat_alert config (PyNum t)] else []).
  { unfold temperature_alerts, get_or_none. now rewrite Ht. }
  split; split.
  - intros H. apply triggers_kinds, temperature_kind_in_kinds in H; auto.
    rewrite Hk in H. destruct (num_le t _); [reflexivity|].
    destruct (num_ge t _); [destruct H as [H|[]]; discriminate H|destruct H].
  - intros Hle. exists (extreme_cold_alert config (PyNum t)). repeat split.
    unfold alerts. rewrite Ha, Hle. apply in_or_app. right.
    apply in_or_app. right. now left.
  - intros H. apply triggers_kinds, temperature_kind_in_kinds in H; auto.
    rewrite Hk in H. destruct (num_le t _).
    + destruct H as [H|[]]. discriminate H.
    + destruct (num_ge t _); [now split|destruct H].
  - intros [Hle Hge]. exists (extreme_heat_alert config (PyNum t)).
    repeat split. unfold alerts. rewrite Ha, Hle, Hge. apply in_or_app. right.
    apply in_or_app. right. now left.
Qed.

(** A temperature of 0 with the default low threshold of 0: EXTREME_COLD. *)
Lemma temperature_rules_witness :
  triggers "EXTREME_COLD" "MEDIUM"
    (alerts default_config (reading (Some (PyNum (Int 0))) None None))
  <-> num_le (Int 0) (Float (EXTREME_TEMP_LOW default_config)) = true.
Proof.
  exact (proj1 (temperature_rules default_config
                  (reading (Some (PyNum (Int 0))) None None) (Int 0) eq_refl)).
Defined.

(** X3: the evaluation returns its alerts in a fixed order
    (rain, wind, temperature), each kind at most once, at most one of the two
    temperature kinds, hence at most three alerts. *)
Theorem alerts_in_fixed_order (config : Config) (w : weather_data) :
  exists (rain wind : bool) (temp : list string),
    kinds (alerts config w)
    = (if rain then ["HEAVY_RAIN"] else [])
      ++ (if wind then ["STRONG_WIND"] else []) ++ temp
    /\ (temp = [] \/ temp = ["EXTREME_COLD"] \/ temp = ["EXTREME_HEAT"])
    /\ NoDup (kinds (alerts config w))
    /\ (length (alerts config w) <= 3)%nat.
Proof.
  exists (truthy_and_ge (get (wd_precipitation w) (PyNum (Int 0)))
            (HEAVY_RAIN_THRESHOLD config)),
         (truthy_and_ge (get (wd_wind_speed w) (PyNum (Int 0)))
            (STRONG_WIND_THRESHOLD config)),
         (kinds (temperature_alerts config w)).
  assert (Hlen : length (alerts config w) = length (kinds (alerts config w)))
    by (unfold kinds; now rewrite length_map).
  rewrite Hlen, kinds_alerts, kinds_rain_alerts, kinds_wind_alerts,
    kinds_temperature_alerts.
  destruct (truthy_and_ge (get (wd_precipitation w) _) _);
    destruct (truthy_and_ge (get (wd_wind_speed w) _) _);
    destruct (get_or_none (wd_temperature w)) as [|t];
    try destruct (num_le t _); try destruct (num_ge t _);
    cbn [app length];
    (split; [reflexivity|]); (split; [tauto|]); (split; [|lia]);
    repeat (constructor; [cbn; intuition discriminate|]); constructor.
Qed.

(** ** Not-a-number *)

Lemma SFcompare_refl (x : spec_float) : x <> S754_nan -> SFcompare x x = Some Eq.
Proof.
  destruct x as [s|s| |s m e]; intros H; cbn.
  - reflexivity.
  - now destruct s.
  - now elim H.
  - rewrite Z.compare_refl, Pos.compare_cont_refl. now destruct s.
Qed.

Lemma is_nan_Prim2SF (f : float) : is_nan f = true -> Prim2SF f = S754_nan.
Proof.
  unfold is_nan. rewrite FloatAxioms.eqb_spec. unfold SFeqb. intros H.
  destruct (Prim2SF f) as [s|s| |s m e] eqn:E; [| |reflexivity|];
    rewrite SFcompare_refl in H by discriminate; discriminate H.
Qed.

Lemma SFcompare_nan_r (x : spec_float) : SFcompare x S754_nan = None.
Proof. now destruct x. Qed.

(** Every comparison with a NaN is unordered. *)
Lemma num_compare_nan_r (n : num) (f : float) :
  is_nan f = true -> num_compare n (Float f) = FNotComparable.
Proof.
  intros H. apply is_nan_Prim2SF in H. destruct n as [z|g]; cbn.
  - unfold int_compare_float. now rewrite H.
  - now rewrite FloatAxioms.compare_spec, H, SFcompare_nan_r.
Qed.

Lemma num_compare_nan_l (f : float) (n : num) :
  is_nan f = true -> num_compare (Float f) n = FNotComparable.
Proof.
  intros H. apply is_nan_Prim2SF in H. destruct n as [z|g]; cbn.
  - unfold int_compare_float. now rewrite H.
  - now rewrite FloatAxioms.compare_spec, H.
Qed.

Lemma truthy_and_ge_nan (v : pyval) (threshold : float) :
  is_nan threshold = true
  \/ (exists f, v = PyNum (Float f) /\ is_nan f = true) ->
  truthy_and_ge v threshold = false.
Proof.
  intros [H|(f & Hv & H)].
  - destruct v as [|n]; [reflexivity|]. unfold truthy_and_ge, num_ge.
    rewrite (num_compare_nan_r n threshold H). apply andb_false_r.
  - subst v. unfold truthy_and_ge, num_ge.
    rewrite (num_compare_nan_l f (Float threshold) H). apply andb_false_r.
Qed.

(** X4: a NaN never triggers anything, although it is truthy.  A NaN
    threshold silences its rule for every reading, and a NaN precipitation,
    wind speed or temperature yields no alert of its rule whatever the
    thresholds. *)
Theorem nan_never_triggers (config : Config) (w : weather_data) :
  (is_nan (HEAVY_RAIN_THRESHOLD config) = true
   \/ (exists f, wd_precipitation w = Some (PyNum (Float f)) /\ is_nan f = true) ->
   ~ In "HEAVY_RAIN" (kinds (alerts config w)))
  /\ (is_nan (STRONG_WIND_THRESHOLD config) = true
      \/ (exists f, wd_wind_speed w = Some (PyNum (Float f)) /\ is_nan f = true) ->
      ~ In "STRONG_WIND" (kinds (alerts config w)))
  /\ (is_nan (EXTREME_TEMP_LOW config) = true
      \/ (exists f, wd_temperature w = Some (PyNum (Float f)) /\ is_nan f = true) ->
      ~ In "EXTREME_COLD" (kinds (alerts config w)))
  /\ (is_nan (EXTREME_TEMP_HIGH config) = true
      \/ (exists f, wd_temperature w = Some (PyNum (Float f)) /\ is_nan f = true) ->
      ~ In "EXTREME_HEAT" (kinds (alerts config w))).
Proof.
  repeat split.
  - intros Hn H. apply heavy_rain_in_kinds in H.
    rewrite truthy_and_ge_nan in H; [discriminate H|].
    destruct Hn as [Hn|(f & Hf & Hn)]; [now left|right].
    exists f. now rewrite Hf.
  - intros Hn H. apply strong_wind_in_kinds in H.
    rewrite truthy_and_ge_nan in H; [discriminate H|].
    destruct Hn as [Hn|(f & Hf & Hn)]; [now left|right].
    exists f. now rewrite Hf.
  - intros Hn H. apply temperature_kind_in_kinds in H; auto.
    rewrite kinds_temperature_alerts in H. unfold get_or_none, get in H.
    destruct (wd_temperature w) as [[|t]|]; try exact H.
    assert (Hle : num_le t (Float (EXTREME_TEMP_LOW config)) = false).
    { unfold num_le. destruct Hn as [Hn|(f & Hf & Hn)].
      - now rewrite (num_compare_nan_r t _ Hn).
      - inversion Hf; subst t. now rewrite (num_compare_nan_l f _ Hn). }
    rewrite Hle in H. destruct (num_ge t _); [|exact H].
    destruct H as [H|[]]. discriminate H.
  - intros Hn H. apply temperature_kind_in_kinds in H; auto.
    rewrite kinds_temperature_alerts in H. unfold get_or_none, get in H.
    destruct (wd_temperature w) as [[|t]|]; try exact H.
    assert (Hge : num_ge t (Float (EXTREME_TEMP_HIGH config)) = false).
    { unfold num_ge. destruct Hn as [Hn|(f & Hf & Hn)].
      - now rewrite (num_compare_nan_r t _ Hn).
      - inversion Hf; subst t. now rewrite (num_compare_nan_l f _ Hn). }
    rewrite Hge in H. destruct (num_le t _); [|exact H].
    destruct H as [H|[]]. discriminate H.
Qed.

(** A NaN precipitation against a threshold of minus infinity, and a NaN
    high-temperature threshold against a reading of 1000 degrees. *)
Lemma nan_never_triggers_witness :
  truthy (PyNum (Float nan)) = true
  /\ ~ In "HEAVY_RAIN"
       (kinds (alerts (with_thresholds default_config neg_infinity 50 0 nan)
                 (reading (Some (PyNum (Int 1000))) (Some (PyNum (Float nan)))
                    None)))
  /\ ~ In "EXTREME_HEAT"
       (kinds (alerts (with_thresholds default_config neg_infinity 50 0 nan)
                 (reading (Some (PyNum (Int 1000))) (Some (PyNum (Float nan)))
                    None))).
Proof.
  split; [reflexivity|].
  pose proof (nan_never_triggers
                (with_thresholds default_config neg_infinity 50 0 nan)
                (reading (Some (PyNum (Int 1000))) (Some (PyNum (Float nan)))
                   None)) as (Hr & _ & _ & Hh).
  split.
  - apply Hr. right. exists nan. split; reflexivity.
  - apply Hh. left. reflexivity.
Defined.

(** ** The cooldown query, row by row *)

Lemma insert_desc_perm (r : alert_log_row) (l : list alert_log_row) :
  Permutation (r :: l) (insert_desc r l).
Proof.
  induction l as [|x l IH]; cbn [insert_desc]; [reflexivity|].
  destruct (timestamp x <=? timestamp r); [reflexivity|].
  rewrite perm_swap. now apply perm_skip.
Qed.

Lemma order_by_timestamp_desc_perm (l : list alert_log_row) :
  Permutation l (order_by_timestamp_desc l).
Proof.
  induction l as [|x l IH]; cbn; [reflexivity|].
  rewrite <- insert_desc_perm. now apply perm_skip.
Qed.

Lemma insert_desc_sorted (r : alert_log_row) (l : list alert_log_row) :
  newest_first l -> newest_first (insert_desc r l).
Proof.
  unfold newest_first. induction l as [|x l IH]; intros Hs; cbn [insert_desc].
  - repeat constructor.
  - destruct (timestamp x <=? timestamp r) eqn:E.
    + apply Z.leb_le in E. constructor; [exact Hs|]. now constructor.
    + apply Z.leb_gt in E. inversion Hs as [|? ? Hl Hh]; subst.
      constructor; [now apply IH|].
      destruct l as [|y l]; cbn [insert_desc].
      * constructor. lia.
      * destruct (timestamp y <=? timestamp r); constructor; [lia|].
        now inversion Hh.
Qed.

Lemma order_by_timestamp_desc_sorted (l : list alert_log_row) :
  newest_first (order_by_timestamp_desc l).
Proof.
  induction l as [|x l IH]; cbn.
  - constructor.
  - now apply insert_desc_sorted.
Qed.

(** X5: when its database call succeeds, [get_recent_alerts] answers the rows
    of the audit log that have the requested kind and a timestamp later than
    [now - hours], each as often as the log holds it, newest first. *)
Theorem get_recent_alerts_rows (type : string) (hours : Z) (w : world) :
  db_call_succeeds w = true ->
  exists rows,
    fst (get_recent_alerts type hours w) = Ret rows
    /\ Permutation (filter (recent_row (clock w) type hours) (alert_log w)) rows
    /\ (forall r, In r rows
                  <-> In r (alert_log w) /\ row_alert_type r = type
                      /\ clock w - hours * microseconds_per_hour < timestamp r)
    /\ newest_first rows.
Proof.
  intros Hok.
  destruct (get_recent_alerts_answer type hours w) as (w1 & E & _).
  exists (query_answer type hours w). rewrite E. cbn [fst].
  unfold query_answer. rewrite Hok. unfold select_recent_alerts.
  split; [reflexivity|]. split; [apply order_by_timestamp_desc_perm|].
  split; [|apply order_by_timestamp_desc_sorted].
  intros r. split.
  - intros H.
    apply (Permutation_in _ (Permutation_sym (order_by_timestamp_desc_perm _)))
      in H.
    apply filter_In in H. destruct H as [Hin Hrec].
    apply recent_row_iff in Hrec. tauto.
  - intros (Hin & Hk & Hlt).
    apply (Permutation_in _ (order_by_timestamp_desc_perm _)).
    apply filter_In. split; [exact Hin|]. now apply recent_row_iff.
Qed.

(** Three rows, one of another kind and one too old. *)
Lemma get_recent_alerts_rows_witness :
  exists rows,
    fst (get_recent_alerts "HEAVY_RAIN" 6
           (world_at (7 * microseconds_per_hour)
              [mkLogRow 0 "HEAVY_RAIN" "HIGH" [] true;
               mkLogRow (2 * microseconds_per_hour) "HEAVY_RAIN" "HIGH" [] false;
               mkLogRow (3 * microseconds_per_hour) "STRONG_WIND" "HIGH" [] true;
               mkLogRow (4 * microseconds_per_hour) "HEAVY_RAIN" "HIGH" [] false]
              [] [] []))
    = Ret rows
    /\ map timestamp rows
       = [4 * microseconds_per_hour; 2 * microseconds_per_hour].
Proof.
  destruct (get_recent_alerts_rows "HEAVY_RAIN" 6
              (world_at (7 * microseconds_per_hour)
                 [mkLogRow 0 "HEAVY_RAIN" "HIGH" [] true;
                  mkLogRow (2 * microseconds_per_hour) "HEAVY_RAIN" "HIGH" [] false;
                  mkLogRow (3 * microseconds_per_hour) "STRONG_WIND" "HIGH" [] true;
                  mkLogRow (4 * microseconds_per_hour) "HEAVY_RAIN" "HIGH" [] false]
                 [] [] []) eq_refl) as (rows & Hrows & _).
  exists rows. split; [exact Hrows|].
  vm_compute in Hrows. injection Hrows as <-. reflexivity.
Defined.

(** X6: the cooldown is per kind.  When no row of the audit log has the kind
    of the alert, the dispatcher calls the notifier, however recent the rows
    of the other kinds are. *)
Theorem other_kinds_never_suppress
  (config : Config) (a : alert) (d : weather_data) (w : world) :
  (forall row, In row (alert_log w) -> row_alert_type row <> alert_type a) ->
  notifies config a d w.
Proof.
  intros Hother. unfold notifies. rewrite _process_alert_calls.
  destruct (query_answer (alert_type a) (ALERT_COOLDOWN_HOURS config) w)
    as [|row rows] eqn:E; [reflexivity|].
  exfalso. unfold query_answer in E.
  destruct (db_call_succeeds w); [|discriminate E].
  assert (Hne : select_recent_alerts (clock w) (alert_type a)
                  (ALERT_COOLDOWN_HOURS config) (alert_log w) <> [])
    by (rewrite E; discriminate).
  apply select_recent_alerts_not_nil in Hne.
  destruct Hne as (r & Hr & Hk & _). exact (Hother r Hr Hk).
Qed.

(** A STRONG_WIND row one second old does not hold back HEAVY_RAIN. *)
Lemma other_kinds_never_suppress_witness :
  notifies default_config (heavy_rain_alert default_config (PyNum (Int 15)))
    test_data
    (world_at 1000000 [mkLogRow 0 "STRONG_WIND" "HIGH" [] true] [] [] []).
Proof.
  apply other_kinds_never_suppress.
  intros row [Hrow|[]]. subst row. discriminate.
Defined.

(** X7: a cooldown of zero hours (or fewer) suppresses nothing: when no row
    of the audit log is stamped later than now, the dispatcher calls the
    notifier. *)
Theorem nonpositive_cooldown_never_suppresses
  (config : Config) (a : alert) (d : weather_data) (w : world) :
  ALERT_COOLDOWN_HOURS config <= 0 ->
  (forall row, In row (alert_log w) -> timestamp row <= clock w) ->
  notifies config a d w.
Proof.
  intros Hh Hpast. unfold notifies. rewrite _process_alert_calls.
  destruct (query_answer (alert_type a) (ALERT_COOLDOWN_HOURS config) w)
    as [|row rows] eqn:E; [reflexivity|].
  exfalso. unfold query_answer in E.
  destruct (db_call_succeeds w); [|discriminate E].
  assert (Hne : select_recent_alerts (clock w) (alert_type a)
                  (ALERT_COOLDOWN_HOURS config) (alert_log w) <> [])
    by (rewrite E; discriminate).
  apply select_recent_alerts_not_nil in Hne.
  destruct Hne as (r & Hr & _ & Hlt). specialize (Hpast r Hr).
  unfold microseconds_per_hour in Hlt. nia.
Qed.

Lemma nonpositive_cooldown_never_suppresses_witness :
  notifies
    (mkConfig "postgresql://weather" "a@example.org" "secret" "b@example.org"
       "Vancouver" 49 (-123) 10 50 0 35 60 0)
    (heavy_rain_alert default_config (PyNum (Int 15))) test_data
    (world_at 5 [mkLogRow 5 "HEAVY_RAIN" "HIGH" [] true] [] [] []).
Proof.
  apply nonpositive_cooldown_never_suppresses.
  - cbn. lia.
  - intros row [Hrow|[]]. subst row. cbn. lia.
Defined.

(** ** What the inserts answer, case by case *)

(** X8: [insert_alert_log] answers [True] when its database call succeeds,
    and then the audit log gains exactly the row, stamped with the current
    time.  Otherwise nothing is stored: it answers [False] when the statement
    fails on a connection it obtained and the rollback succeeds, raises the
    rollback's error when the rollback fails too, and raises
    [UnboundLocalError] when no connection could be obtained.  The readings
    table is never touched. *)
Theorem insert_alert_log_outcome (type sev : string) (msg : list fpart)
  (sent : bool) (w : world) :
  fst (insert_alert_log type sev msg sent w)
  = (if connects w then
       if statement_ok (pending_db_outcome w) then Ret true
       else if rollback_ok (pending_db_outcome w) then Ret false
       else Raise DatabaseError
     else Raise UnboundLocalError)
  /\ alert_log (snd (insert_alert_log type sev msg sent w))
     = (if db_call_succeeds w
        then alert_log w ++ [mkLogRow (clock w) type sev msg sent]
        else alert_log w)
  /\ weather_table (snd (insert_alert_log type sev msg sent w)) = weather_table w.
Proof.
  destruct w as [now conn log wt db smtp api sf tr].
  unfold insert_alert_log, db_call_succeeds, connects, pending_db_outcome.
  destruct db as [|[c s rb sv] db]; destruct conn; cbn;
    try destruct c; try destruct s; try destruct rb; try destruct sv; cbn;
    repeat split; reflexivity.
Qed.

(** X9: [insert_weather_data] follows the same cases.  On success the
    readings table gains one row holding the location, the coordinates and
    the entries of the reading, a missing key being stored like [None]; on
    any failure nothing is stored.  The audit log is never touched. *)
Theorem insert_weather_data_outcome (location : string)
  (latitude longitude : float) (d : weather_data) (w : world) :
  fst (insert_weather_data location latitude longitude d w)
  = (if connects w then
       if statement_ok (pending_db_outcome w) then Ret true
       else if rollback_ok (pending_db_outcome w) then Ret false
       else Raise DatabaseError
     else Raise UnboundLocalError)
  /\ weather_table (snd (insert_weather_data location latitude longitude d w))
     = (if db_call_succeeds w
        then weather_table w
             ++ [mkWeatherRow (wd_timestamp d) location latitude longitude
                   (get_or_none (wd_temperature d))
                   (get_or_none (wd_precipitation d))
                   (get_or_none (wd_wind_speed d))
                   (get_or_none (wd_humidity d))
                   (get_or_none (wd_weather_code d))]
        else weather_table w)
  /\ alert_log (snd (insert_weather_data location latitude longitude d w))
     = alert_log w.
Proof.
  destruct w as [now conn log wt db smtp api sf tr].
  unfold insert_weather_data, db_call_succeeds, connects, pending_db_outcome.
  destruct db as [|[c s rb sv] db]; destruct conn; cbn;
    try destruct c; try destruct s; try destruct rb; try destruct sv; cbn;
    repeat split; reflexivity.
Qed.

(** X10: [test_connection] never raises: it answers whether its database
    call succeeded, and changes neither table. *)
Theorem test_connection_reports (w : world) :
  fst (test_connection w) = Ret (db_call_succeeds w)
  /\ alert_log (snd (test_connection w)) = alert_log w
  /\ weather_table (snd (test_connection w)) = weather_table w.
Proof.
  destruct w as [now conn log wt db smtp api sf tr].
  unfold test_connection, db_call_succeeds, connects, pending_db_outcome.
  destruct db as [|[c s rb sv] db]; destruct conn; cbn;
    try destruct c; try destruct s; try destruct sv; cbn;
    repeat split; reflexivity.
Qed.

(** ** Dispatch on a healthy database *)

Lemma healthy_db_call_succeeds (w : world) :
  healthy w = true -> db_call_succeeds w = true.
Proof.
  unfold healthy, db_call_succeeds, connects, pending_db_outcome, db_ok.
  destruct (db_script w) as [|o rest]; cbn.
  - intros _. now destruct (connection w).
  - intros H. apply andb_true_iff in H. destruct H as [H _].
    apply andb_true_iff in H. destruct H as [Hc Hs].
    rewrite Hc, Hs. now destruct (connection w).
Qed.

Lemma query_answer_healthy (config : Config) (a : alert) (w : world) :
  healthy w = true ->
  query_answer (alert_type a) (ALERT_COOLDOWN_HOURS config) w
  = select_recent_alerts (clock w) (alert_type a)
      (ALERT_COOLDOWN_HOURS config) (alert_log w).
Proof.
  intros H. unfold query_answer. now rewrite (healthy_db_call_succeeds w H).
Qed.

(** What the three steps of the dispatcher leave untouched. *)
Lemma get_recent_alerts_frame (type : string) (hours : Z) (w : world) :
  exists w1,
    get_recent_alerts type hours w = (Ret (query_answer type hours w), w1)
    /\ clock w1 = clock w
    /\ alert_log w1 = alert_log w
    /\ weather_table w1 = weather_table w
    /\ smtp_script w1 = smtp_script w
    /\ db_script w1 = tl (db_script w).
Proof.
  destruct w as [now conn log wt db smtp api sf tr].
  unfold get_recent_alerts, query_answer, db_call_succeeds, connects,
    pending_db_outcome.
  destruct db as [|[c s rb sv] db]; destruct conn; cbn;
    try destruct c; try destruct s; try destruct sv; cbn;
    eexists; repeat split; reflexivity.
Qed.

Lemma _send_email_alert_frame (config : Config) (a : alert) (d : weather_data)
  (w : world) :
  exists w1,
    _send_email_alert config a d w = (Ret (pending_smtp_outcome w), w1)
    /\ clock w1 = clock w
    /\ alert_log w1 = alert_log w
    /\ weather_table w1 = weather_table w
    /\ db_script w1 = db_script w.
Proof.
  destruct w as [now conn log wt db smtp api sf tr].
  unfold _send_email_alert, pending_smtp_outcome.
  destruct smtp as [|[] smtp]; cbn; eexists; repeat split; reflexivity.
Qed.

Lemma insert_alert_log_frame (type sev : string) (msg : list fpart)
  (sent : bool) (w : world) :
  healthy w = true ->
  exists w1,
    insert_alert_log type sev msg sent w = (Ret true, w1)
    /\ alert_log w1 = alert_log w ++ [mkLogRow (clock w) type sev msg sent]
    /\ clock w1 = clock w
    /\ weather_table w1 = weather_table w
    /\ db_script w1 = tl (db_script w).
Proof.
  destruct w as [now conn log wt db smtp api sf tr].
  unfold insert_alert_log, healthy, db_ok. cbn [db_script].
  destruct db as [|[c s rb sv] db]; cbn [forallb connect_ok statement_ok];
    intros H.
  - destruct conn; cbn; eexists; repeat split; reflexivity.
  - apply andb_true_iff in H. destruct H as [H _].
    apply andb_true_iff in H. destruct H as [-> ->].
    destruct conn; cbn; eexists; repeat split; reflexivity.
Qed.

Lemma healthy_tl (w w1 : world) :
  healthy w = true -> db_script w1 = tl (db_script w) -> healthy w1 = true.
Proof.
  unfold healthy. intros H E. rewrite E.
  destruct (db_script w) as [|o rest]; cbn in *; [reflexivity|].
  now apply andb_true_iff in H.
Qed.

(** On a healthy database one run of [_process_alert] returns normally and
    appends exactly one audit row: the flag is the notifier's answer, or
    [False] under cooldown. *)
Lemma _process_alert_healthy (config : Config) (a : alert) (d : weather_data)
  (w : world) :
  healthy w = true ->
  exists w1,
    _process_alert config a d w = (Ret tt, w1)
    /\ alert_log w1
       = alert_log w
         ++ [audit_row (clock w) a
               (negb (in_cooldown config w a) && pending_smtp_outcome w)]
    /\ clock w1 = clock w
    /\ weather_table w1 = weather_table w
    /\ healthy w1 = true.
Proof.
  intros Hh.
  destruct (get_recent_alerts_frame (alert_type a)
              (ALERT_COOLDOWN_HOURS config) w)
    as (w1 & E1 & C1 & L1 & W1 & S1 & D1).
  pose proof (healthy_tl w w1 Hh D1) as Hh1.
  rewrite (query_answer_healthy config a w Hh) in E1.
  unfold _process_alert, bind at 1. rewrite E1.
  unfold in_cooldown, audit_row.
  destruct (select_recent_alerts (clock w) (alert_type a)
              (ALERT_COOLDOWN_HOURS config) (alert_log w)) as [|row rows].
  - destruct (_send_email_alert_frame config a d w1)
      as (w2 & E2 & C2 & L2 & W2 & D2).
    assert (Hh2 : healthy w2 = true) by (unfold healthy; now rewrite D2).
    destruct (insert_alert_log_frame (alert_type a) (severity a) (message a)
                (pending_smtp_outcome w1) w2 Hh2)
      as (w3 & E3 & L3 & C3 & W3 & D3).
    exists w3. unfold bind, ret. rewrite E2, E3.
    unfold pending_smtp_outcome in *. rewrite S1 in L3.
    rewrite L3, L2, L1, C3, C2, C1, W3, W2, W1. cbn [negb andb].
    repeat split. exact (healthy_tl w2 w3 Hh2 D3).
  - destruct (insert_alert_log_frame (alert_type a) (severity a) (message a)
                false w1 Hh1)
      as (w3 & E3 & L3 & C3 & W3 & D3).
    exists w3. unfold bind, ret. rewrite E3.
    rewrite L3, L1, C3, C1, W3, W1. cbn [negb andb].
    repeat split. exact (healthy_tl w1 w3 Hh1 D3).
Qed.











(** X13: every dispatch renews the cooldown.  With a positive cooldown and a
    healthy database, after one dispatch of an alert at time [t0] (whether it
    notified, was suppressed, or the notifier failed) a dispatch of an alert
    of the same kind at any time before [t0 + H] is suppressed: the query
    counts every row of the kind, also those with [email_sent=False]. *)
Theorem dispatch_renews_cooldown
  (config : Config) (a b : alert) (d d' : weather_data) (w : world) (t : Z) :
  healthy w = true ->
  alert_type b = alert_type a ->
  t < clock w + ALERT_COOLDOWN_HOURS config * microseconds_per_hour ->
  suppresses config b d' (at_time t (snd (_process_alert config a d w))).
Proof.
  intros Hh Hk Ht.
  destruct (_process_alert_healthy config a d w Hh)
    as (w1 & E1 & L1 & C1 & _ & Hh1).
  rewrite E1. cbn [snd].
  assert (Hh2 : healthy (at_time t w1) = true) by exact Hh1.
  unfold suppresses. rewrite _process_alert_calls.
  rewrite (query_answer_healthy config b (at_time t w1) Hh2).
  cbn [clock alert_log at_time].
  destruct (select_recent_alerts t (alert_type b) (ALERT_COOLDOWN_HOURS config)
              (alert_log w1)) eqn:E; [|reflexivity].
  exfalso. revert E. apply select_recent_alerts_not_nil.
  eexists. split; [rewrite L1; apply in_or_app; right; left; reflexivity|].
  cbn. split; [now symmetry|]. lia.
Qed.

(** The notifier fails at time 0; one microsecond before the sixth hour the
    same alert is still suppressed. *)
Lemma dispatch_renews_cooldown_witness :
  email_sent
    (last (alert_log
             (snd (_process_alert default_config
                     (heavy_rain_alert default_config (PyNum (Int 15)))
                     test_data (world_at 0 [] [] [false] []))))
          (mkLogRow 0 "" "" [] true))
  = false
  /\ suppresses default_config
       (heavy_rain_alert default_config (PyNum (Int 20))) test_data
       (at_time (6 * microseconds_per_hour - 1)
          (snd (_process_alert default_config
                  (heavy_rain_alert default_config (PyNum (Int 15)))
                  test_data (world_at 0 [] [] [false] [])))).
Proof.
  split; [vm_compute; reflexivity|].
  apply dispatch_renews_cooldown; [reflexivity|reflexivity|].
  cbn. reflexivity.
Defined.

(** ** The cycle, step by step *)

Lemma get_current_weather_frame (latitude longitude : float) (w : world) :
  exists w1,
    get_current_weather latitude longitude w = (Ret (fetched_reading w), w1)
    /\ clock w1 = clock w
    /\ connection w1 = connection w
    /\ alert_log w1 = alert_log w
    /\ weather_table w1 = weather_table w
    /\ db_script w1 = db_script w
    /\ smtp_script w1 = smtp_script w.
Proof.
  destruct w as [now conn log wt db smtp api sf tr].
  unfold get_current_weather, fetched_reading, bind, emit, next_api_outcome,
    logger_error, ret.
  cbn [api_script clock].
  destruct api as [|[| |status_code current] api]; cbn;
    try (eexists; repeat split; reflexivity).
  destruct (status_code =? 200); cbn; eexists; repeat split; reflexivity.
Qed.

Lemma fetched_reading_truthy (w : world) (d : weather_data) :
  fetched_reading w = Some d -> wd_truthy d = true.
Proof.
  unfold fetched_reading.
  destruct (api_script w) as [|[| |status_code current] api]; try discriminate.
  destruct (status_code =? 200); [|discriminate].
  intros H. inversion H. reflexivity.
Qed.

Lemma fetch_fails_fetched_reading (w : world) :
  fetch_fails w = false -> exists d, fetched_reading w = Some d.
Proof.
  unfold fetch_fails, fetched_reading.
  destruct (api_script w) as [|[| |status_code current] api]; try discriminate.
  destruct (status_code =? 200); [|discriminate]. intros _. eauto.
Qed.

(** The rest of a cycle once the reading is there. *)
Lemma run_pipeline_after_fetch (config : Config) (w w1 : world)
  (d : weather_data) :
  get_current_weather (LATITUDE config) (LONGITUDE config) (fresh_database w)
  = (Ret (Some d), w1) ->
  wd_truthy d = true ->
  run_pipeline config w
  = try_except
      (success <- insert_weather_data (LOCATION config) (LATITUDE config)
                    (LONGITUDE config) d ;;
       if negb success then
         logger_error "Failed to store weather data" ;; ret false
       else
         check_and_send_alerts config d ;;
         ret true)
      (fun _ => logger_error "Pipeline execution failed" ;; ret false) w1.
Proof.
  intros E Ht. unfold fresh_database in E.
  unfold run_pipeline, try_except. unfold bind at 1. unfold Database at 1.
  unfold bind at 1. rewrite E, Ht. reflexivity.
Qed.





(** ** What a cycle leaves untouched *)

Section Preserves.

Context {X : Type}.
Variable f : world -> X.
Hypothesis f_connection : forall c w, f (set_connection c w) = f w.
Hypothesis f_alert_log : forall l w, f (set_alert_log l w) = f w.
Hypothesis f_weather_table : forall l w, f (set_weather_table l w) = f w.
Hypothesis f_db_script : forall l w, f (set_db_script l w) = f w.
Hypothesis f_smtp_script : forall l w, f (set_smtp_script l w) = f w.
Hypothesis f_api_script : forall l w, f (set_api_script l w) = f w.
Hypothesis f_trace : forall l w, f (set_trace l w) = f w.

Lemma preserves_ret {A} (a : A) : preserves f (ret a).
Proof. intros w. reflexivity. Qed.

Lemma preserves_raise {A} (e : exn) : preserves f (@raise A e).
Proof. intros w. reflexivity. Qed.

Lemma preserves_bind {A B} (m : M A) (k : A -> M B) :
  preserves f m -> (forall a, preserves f (k a)) -> preserves f (bind m k).
Proof.
  intros Hm Hk w. specialize (Hm w). unfold bind.
  destruct (m w) as [[a|e] w1]; cbn [snd] in *.
  - now rewrite (Hk a w1).
  - exact Hm.
Qed.

Lemma preserves_try_except {A} (body : M A) (handler : exn -> M A) :
  preserves f body -> (forall e, preserves f (handler e)) ->
  preserves f (try_except body handler).
Proof.
  intros Hb Hh w. specialize (Hb w). unfold try_except.
  destruct (body w) as [[a|e] w1]; cbn [snd] in *.
  - exact Hb.
  - now rewrite (Hh e w1).
Qed.

Lemma preserves_attempt {A} (m : M A) : preserves f m -> preserves f (attempt m).
Proof.
  intros Hm w. specialize (Hm w). unfold attempt.
  now destruct (m w) as [[a|e] w1].
Qed.

Lemma preserves_emit (e : event) : preserves f (emit e).
Proof. intros w. apply f_trace. Qed.

Lemma preserves_logger_error (text : string) : preserves f (logger_error text).
Proof. apply preserves_emit. Qed.

Lemma preserves_next_db_outcome : preserves f next_db_outcome.
Proof.
  intros w. unfold next_db_outcome.
  destruct (db_script w); [reflexivity|apply f_db_script].
Qed.

Lemma preserves_next_smtp_outcome : preserves f next_smtp_outcome.
Proof.
  intros w. unfold next_smtp_outcome.
  destruct (smtp_script w); [reflexivity|apply f_smtp_script].
Qed.

Lemma preserves_next_api_outcome : preserves f next_api_outcome.
Proof.
  intros w. unfold next_api_outcome.
  destruct (api_script w); [reflexivity|apply f_api_script].
Qed.

Lemma preserves_Database : preserves f Database.
Proof. intros w. apply f_connection. Qed.

Lemma preserves_execute {A} (o : db_outcome) (effect : world -> A * world) :
  (forall w, f (snd (effect w)) = f w) -> preserves f (execute o effect).
Proof.
  intros He w. unfold execute. destruct (statement_ok o).
  - specialize (He w). now destruct (effect w).
  - destruct (connection_survives o); [reflexivity|apply f_connection].
Qed.

Lemma preserves_rollback (o : db_outcome) : preserves f (rollback o).
Proof. intros w. unfold rollback. now destruct (rollback_ok o). Qed.

Lemma preserves__get_connection (o : db_outcome) :
  preserves f (_get_connection o).
Proof.
  intros w. unfold _get_connection.
  destruct (connection w), (connect_ok o); cbn [snd];
    try reflexivity; try apply f_connection;
    apply (preserves_bind _ _ (preserves_logger_error _)
             (fun _ => preserves_raise _)).
Qed.

Ltac preserves_step :=
  first
    [ apply preserves_ret | apply preserves_raise | apply preserves_logger_error
    | apply preserves_emit
    | apply preserves_next_db_outcome | apply preserves_next_smtp_outcome
    | apply preserves_next_api_outcome | apply preserves_Database
    | apply preserves_rollback | apply preserves__get_connection
    | apply preserves_attempt
    | apply preserves_execute; intros; cbn [snd];
      first [reflexivity | apply f_alert_log | apply f_weather_table]
    | apply preserves_bind; [|intro]
    | apply preserves_try_except; [|intro]
    | match goal with
      | |- preserves _ (match ?x with _ => _ end) => destruct x
      end ].

Lemma preserves_test_connection : preserves f test_connection.
Proof. unfold test_connection. repeat preserves_step. Qed.

Lemma preserves_insert_weather_data (location : string)
  (latitude longitude : float) (d : weather_data) :
  preserves f (insert_weather_data location latitude longitude d).
Proof. unfold insert_weather_data, insert_except. repeat preserves_step. Qed.

Lemma preserves_insert_alert_log (type sev : string) (msg : list fpart)
  (sent : bool) :
  preserves f (insert_alert_log type sev msg sent).
Proof. unfold insert_alert_log, insert_except. repeat preserves_step. Qed.

Lemma preserves_get_recent_alerts (type : string) (hours : Z) :
  preserves f (get_recent_alerts type hours).
Proof. unfold get_recent_alerts. repeat preserves_step. Qed.

Lemma preserves__send_email_alert (config : Config) (a : alert)
  (d : weather_data) :
  preserves f (_send_email_alert config a d).
Proof. unfold _send_email_alert. repeat preserves_step. Qed.

Lemma preserves_get_current_weather (latitude longitude : float) :
  preserves f (get_current_weather latitude longitude).
Proof.
  unfold get_current_weather. repeat preserves_step.
  intros w. reflexivity.
Qed.

Lemma preserves__process_alert (config : Config) (a : alert) (d : weather_data) :
  preserves f (_process_alert config a d).
Proof.
  unfold _process_alert.
  apply preserves_bind; [apply preserves_get_recent_alerts|].
  intros [|row rows].
  - apply preserves_bind; [apply preserves__send_email_alert|intros sent].
    apply preserves_bind; [apply preserves_insert_alert_log|intros _].
    apply preserves_ret.
  - apply preserves_bind; [apply preserves_insert_alert_log|intros _].
    apply preserves_ret.
Qed.

Lemma preserves_for_each {A} (l : list A) (body : A -> M unit) :
  (forall x, preserves f (body x)) -> preserves f (for_each l body).
Proof.
  intros Hb. induction l as [|x l IH]; cbn [for_each].
  - apply preserves_ret.
  - apply preserves_bind; [apply Hb|intros _; exact IH].
Qed.

Lemma preserves_check_and_send_alerts (config : Config) (d : weather_data) :
  preserves f (check_and_send_alerts config d).
Proof.
  unfold check_and_send_alerts. apply preserves_for_each. intros a.
  apply preserves__process_alert.
Qed.

Lemma preserves_run_pipeline (config : Config) : preserves f (run_pipeline config).
Proof.
  unfold run_pipeline.
  apply preserves_try_except; [|intros _; repeat preserves_step].
  apply preserves_bind; [apply preserves_Database|intros _].
  apply preserves_bind; [apply preserves_get_current_weather|intros data].
  destruct data as [d|]; [|repeat preserves_step].
  destruct (negb (wd_truthy d)); [repeat preserves_step|].
  apply preserves_bind; [apply preserves_insert_weather_data|intros success].
  destruct (negb success); [repeat preserves_step|].
  apply preserves_bind; [apply preserves_check_and_send_alerts|intros _].
  apply preserves_ret.
Qed.

End Preserves.

(** ** When a cycle fails *)

Lemma run_pipeline_never_raises (config : Config) (w : world) :
  exists b, fst (run_pipeline config w) = Ret b.
Proof.
  unfold run_pipeline, try_except.
  match goal with |- context [match ?body w with _ => _ end] =>
    destruct (body w) as [[b|e] w1]
  end.
  - now exists b.
  - now exists false.
Qed.

Lemma insert_weather_data_failure (location : string)
  (latitude longitude : float) (d : weather_data) (w : world) :
  db_call_succeeds w = false ->
  (fst (insert_weather_data location latitude longitude d w) = Ret false
   \/ exists e,
        fst (insert_weather_data location latitude longitude d w) = Raise e)
  /\ weather_table (snd (insert_weather_data location latitude longitude d w))
     = weather_table w
  /\ alert_log (snd (insert_weather_data location latitude longitude d w))
     = alert_log w.
Proof.
  destruct w as [now conn log wt db smtp api sf tr].
  unfold insert_weather_data, db_call_succeeds, connects, pending_db_outcome.
  destruct db as [|[c s rb sv] db]; destruct conn; cbn;
    try destruct c; try destruct s; try destruct rb; try destruct sv; cbn;
    intros H; try discriminate H; repeat split; eauto.
Qed.

(** X15: when the reading was fetched and cannot be stored, the cycle stops
    there.  [run_pipeline] answers [False], whether [insert_weather_data]
    answered [False] or raised; neither table changes and the dispatcher is
    not entered: no notifier call and no audit call is made. *)
Theorem store_failure_aborts_cycle (config : Config) (w : world) :
  fetch_fails w = false ->
  db_call_succeeds (fresh_database w) = false ->
  fst (run_pipeline config w) = Ret false
  /\ weather_table (snd (run_pipeline config w)) = weather_table w
  /\ alert_log (snd (run_pipeline config w)) = alert_log w
  /\ dispatch_calls (trace (snd (run_pipeline config w)))
     = dispatch_calls (trace w).
Proof.
  intros Hf Hdb.
  destruct (fetch_fails_fetched_reading w Hf) as (d & Hd).
  destruct (get_current_weather_frame (LATITUDE config) (LONGITUDE config)
              (fresh_database w))
    as (w1 & E1 & _ & K1 & L1 & W1 & D1 & _).
  change (fetched_reading (fresh_database w)) with (fetched_reading w) in E1.
  rewrite Hd in E1.
  assert (T1 : dispatch_calls (trace w1) = dispatch_calls (trace w)).
  { destruct (emits_get_current_weather not_dispatch_call not_dispatch_log
                _ _ eq_refl _ _ _ E1) as (t & T & P).
    rewrite T, dispatch_calls_app, (forallb_not_dispatch _ P), app_nil_r.
    reflexivity. }
  assert (Hdb1 : db_call_succeeds w1 = false).
  { unfold db_call_succeeds, connects, pending_db_outcome in *.
    now rewrite K1, D1. }
  destruct (insert_weather_data_failure (LOCATION config) (LATITUDE config)
              (LONGITUDE config) d w1 Hdb1) as (Hr & W2 & L2).
  destruct (insert_weather_data (LOCATION config) (LATITUDE config)
              (LONGITUDE config) d w1) as [r w2] eqn:E2.
  cbn [fst snd] in Hr, W2, L2.
  assert (T2 : dispatch_calls (trace w2) = dispatch_calls (trace w1)).
  { destruct (emits_insert_weather_data not_dispatch_call not_dispatch_log
                _ _ _ _ eq_refl _ _ _ E2) as (t & T & P).
    now rewrite T, dispatch_calls_app, (forallb_not_dispatch _ P), app_nil_r. }
  assert (Hrun : exists text,
            run_pipeline config w
            = (Ret false, set_trace (trace w2 ++ [Log_error text]) w2)).
  { rewrite (run_pipeline_after_fetch config w w1 d E1
               (fetched_reading_truthy w d Hd)).
    unfold try_except, bind at 1. rewrite E2.
    destruct Hr as [Hr|(e & Hr)]; subst r; eexists; reflexivity. }
  destruct Hrun as (text & Hrun). rewrite Hrun.
  cbn [fst snd trace set_trace weather_table alert_log].
  rewrite dispatch_calls_app, W2, L2, T2, T1, W1, L1.
  repeat split; try reflexivity. apply app_nil_r.
Qed.

(** The database cannot be reached when the reading is to be stored. *)
Lemma store_failure_aborts_cycle_witness :
  fst (run_pipeline default_config
         (world_at 0 [] [db_unreachable] []
            [ApiResponse 200
               (mkCurrent (Some (PyNum (Int 30))) (Some (PyNum (Int 15)))
                  (Some (PyNum (Int 60))) None None)]))
  = Ret false.
Proof.
  apply (store_failure_aborts_cycle default_config
           (world_at 0 [] [db_unreachable] []
              [ApiResponse 200
                 (mkCurrent (Some (PyNum (Int 30))) (Some (PyNum (Int 15)))
                    (Some (PyNum (Int 60))) None None)]));
    reflexivity.
Defined.

Lemma insert_weather_data_true (location : string) (latitude longitude : float)
  (d : weather_data) (w w' : world) :
  insert_weather_data location latitude longitude d w = (Ret true, w') ->
  weather_table w'
  = weather_table w ++ [weather_row_of location latitude longitude d].
Proof.
  destruct w as [now conn log wt db smtp api sf tr].
  unfold insert_weather_data.
  destruct db as [|[c s rb sv] db]; destruct conn; cbn;
    try destruct c; try destruct s; try destruct rb; try destruct sv; cbn;
    intros H; inversion H; reflexivity.
Qed.

Lemma insert_calls_quiet {A} (m : M A) (w : world) (r : result A) (w' : world) :
  emits_only not_dispatch_call m -> m w = (r, w') ->
  insert_calls (trace w') = insert_calls (trace w).
Proof.
  intros Hm E. destruct (Hm _ _ _ E) as (t & T & P).
  rewrite (insert_calls_dispatch (trace w')), T, dispatch_calls_app.
  rewrite (forallb_not_dispatch _ P), app_nil_r.
  symmetry. apply insert_calls_dispatch.
Qed.

(** X16: an answer of [True] from [run_pipeline] means that a reading was
    fetched, that the readings table gained exactly its row, and that the
    dispatcher made one audit call per alert of that reading, in order.  It
    does not mean that the audit rows were stored or the e-mails sent:
    [insert_alert_log] and the notifier may have answered [False]. *)
Theorem run_pipeline_true (config : Config) (w : world) :
  fst (run_pipeline config w) = Ret true ->
  exists d t,
    fetched_reading w = Some d
    /\ weather_table (snd (run_pipeline config w))
       = weather_table w
         ++ [weather_row_of (LOCATION config) (LATITUDE config)
               (LONGITUDE config) d]
    /\ insert_calls (trace (snd (run_pipeline config w)))
       = insert_calls (trace w) ++ t
    /\ map recorded_alert t = map alert_key (alerts config d).
Proof.
  intros H.
  destruct (get_current_weather_frame (LATITUDE config) (LONGITUDE config)
              (fresh_database w))
    as (w1 & E1 & _ & _ & _ & W1 & _).
  change (fetched_reading (fresh_database w)) with (fetched_reading w) in E1.
  destruct (fetched_reading w) as [d|] eqn:Hd.
  - pose proof (run_pipeline_after_fetch config w w1 d E1
                  (fetched_reading_truthy w d Hd)) as Hrun.
    unfold try_except, bind at 1 in Hrun.
    destruct (insert_weather_data (LOCATION config) (LATITUDE config)
                (LONGITUDE config) d w1) as [r w2] eqn:E2.
    destruct r as [[|]|e];
      [|rewrite Hrun in H; discriminate H|rewrite Hrun in H; discriminate H].
    cbn [negb] in Hrun. unfold bind in Hrun.
    destruct (check_and_send_alerts config d w2) as [r3 w3] eqn:E3.
    destruct r3 as [[]|e]; [|rewrite Hrun in H; discriminate H].
    destruct (check_and_send_alerts_audit config d w2 w3 E3) as (t & Ht & Hk).
    exists d, t. rewrite Hrun. cbn [snd ret]. repeat split.
    + pose proof (preserves_check_and_send_alerts weather_table
                    (fun _ _ => eq_refl) (fun _ _ => eq_refl)
                    (fun _ _ => eq_refl) (fun _ _ => eq_refl)
                    (fun _ _ => eq_refl) config d w2) as W3.
      rewrite E3 in W3. cbn [snd] in W3.
      now rewrite W3, (insert_weather_data_true _ _ _ _ _ _ E2), W1.
    + rewrite Ht. f_equal.
      rewrite (insert_calls_quiet _ _ _ _
                 (emits_insert_weather_data not_dispatch_call not_dispatch_log
                    _ _ _ _ eq_refl) E2).
      exact (insert_calls_quiet _ _ _ _
               (emits_get_current_weather not_dispatch_call not_dispatch_log
                  _ _ eq_refl) E1).
    + exact Hk.
  - exfalso.
    assert (Hrun : fst (run_pipeline config w) = Ret false).
    { unfold run_pipeline, try_except. unfold bind at 1. unfold Database at 1.
      unfold bind at 1. unfold fresh_database in E1. rewrite E1. reflexivity. }
    rewrite Hrun in H. discriminate H.
Qed.

(** The statement of the audit insert fails and is rolled back: the cycle
    still answers [True], with a reading stored and an empty audit log. *)
Lemma run_pipeline_true_witness :
  alert_log
    (snd (run_pipeline default_config
            (world_at 0 [] [db_fine; db_fine; db_statement_fails] [true]
               [ApiResponse 200
                  (mkCurrent None (Some (PyNum (Int 15))) None None None)])))
  = []
  /\ exists d t,
       fetched_reading
         (world_at 0 [] [db_fine; db_fine; db_statement_fails] [true]
            [ApiResponse 200
               (mkCurrent None (Some (PyNum (Int 15))) None None None)])
       = Some d
       /\ weather_table
            (snd (run_pipeline default_config
                    (world_at 0 [] [db_fine; db_fine; db_statement_fails] [true]
                       [ApiResponse 200
                          (mkCurrent None (Some (PyNum (Int 15))) None None
                             None)])))
          = [weather_row_of (LOCATION default_config) (LATITUDE default_config)
               (LONGITUDE default_config) d]
       /\ insert_calls
            (trace
               (snd (run_pipeline default_config
                       (world_at 0 [] [db_fine; db_fine; db_statement_fails]
                          [true]
                          [ApiResponse 200
                             (mkCurrent None (Some (PyNum (Int 15))) None None
                                None)]))))
          = t
       /\ map recorded_alert t = map alert_key (alerts default_config d).
Proof.
  split; [vm_compute; reflexivity|].
  apply (run_pipeline_true default_config
           (world_at 0 [] [db_fine; db_fine; db_statement_fails] [true]
              [ApiResponse 200
                 (mkCurrent None (Some (PyNum (Int 15))) None None None)])).
  vm_compute. reflexivity.
Defined.

(** ** Start-up and the scheduler *)

Lemma scheduler_start_answer (config : Config) (w : world) :
  scheduler_start config w
  = (if scheduler_fails w then Raise SchedulerError else Ret tt,
     set_trace
       (trace w
        ++ Call_scheduler_start (SCHEDULE_INTERVAL_MINUTES config)
           :: (if scheduler_fails w
               then [Log_error "Failed to start scheduler"] else []))
       w).
Proof.
  destruct w as [now conn log wt db smtp api sf tr].
  unfold scheduler_start, bind, emit, logger_error, raise. cbn.
  destruct sf; cbn; [|reflexivity].
  now rewrite <- app_assoc.
Qed.

(** X17: [main] does not look at the answer of the initial cycle.  Whenever
    the connection test passes, the cycle runs once and the scheduler is
    then started with [SCHEDULE_INTERVAL_MINUTES], whether the cycle
    answered [True] or [False]; [main] goes on to its idle loop when the
    scheduler started and raises when it could not. *)
Theorem main_starts_scheduler_after_cycle (config : Config) (w : world) :
  db_call_succeeds (fresh_database w) = true ->
  fst (main config w)
  = (if scheduler_fails w then Raise SchedulerError else Ret tt)
  /\ exists t,
       trace (snd (main config w))
       = t ++ Call_scheduler_start (SCHEDULE_INTERVAL_MINUTES config)
              :: (if scheduler_fails w
                  then [Log_error "Failed to start scheduler"] else [])
       /\ cycles t = (cycles (trace w) + 1)%nat.
Proof.
  intros Hc. unfold fresh_database in Hc.
  destruct (test_connection_answer (set_connection NoConnection w))
    as (w1 & E).
  rewrite Hc in E.
  assert (C1 : cycles (trace w1) = cycles (trace w)).
  { destruct (emits_test_connection not_cycle_call not_cycle_log eq_refl
                _ _ _ E) as (t & T & P).
    rewrite T, cycles_app, (forallb_not_cycle _ P). cbn [trace set_connection].
    lia. }
  assert (S1 : scheduler_fails w1 = scheduler_fails w).
  { pose proof (preserves_test_connection scheduler_fails
                  (fun _ _ => eq_refl) (fun _ _ => eq_refl)
                  (fun _ _ => eq_refl) (set_connection NoConnection w)) as S.
    now rewrite E in S. }
  destruct (run_pipeline_never_raises config w1) as (b & Hb).
  pose proof (run_pipeline_cycles config w1) as C2.
  pose proof (preserves_run_pipeline scheduler_fails
                (fun _ _ => eq_refl) (fun _ _ => eq_refl) (fun _ _ => eq_refl)
                (fun _ _ => eq_refl) (fun _ _ => eq_refl) (fun _ _ => eq_refl)
                (fun _ _ => eq_refl) config w1) as S2.
  destruct (run_pipeline config w1) as [r w2] eqn:E2.
  cbn [fst snd] in Hb, C2, S2. subst r.
  assert (Hmain : main config w = scheduler_start config w2).
  { unfold main, bind at 1, Database. unfold bind at 1. rewrite E.
    cbn [negb]. unfold bind at 1. now rewrite E2. }
  rewrite Hmain, scheduler_start_answer, S2, S1. cbn [fst snd trace set_trace].
  split; [reflexivity|].
  exists (trace w2). split; [reflexivity|]. lia.
Qed.

(** The initial cycle fails (the request times out) and the scheduler is
    started all the same. *)
Lemma main_starts_scheduler_after_cycle_witness :
  fst (run_pipeline default_config
         (snd (test_connection
                 (fresh_database (world_at 0 [] [] [] [ApiRequestException])))))
  = Ret false
  /\ fst (main default_config (world_at 0 [] [] [] [ApiRequestException]))
     = Ret tt.
Proof.
  split; [vm_compute; reflexivity|].
  apply (main_starts_scheduler_after_cycle default_config
           (world_at 0 [] [] [] [ApiRequestException])).
  reflexivity.
Defined.

(** ** The configuration and the environment *)

Lemma str_truthy_getenv (environ : string -> option string) (key : string) :
  str_truthy (getenv environ key "") = true <-> is_set environ key.
Proof.
  unfold getenv, is_set. destruct (environ key) as [value|]; split.
  - intros H. exists value. split; [reflexivity|].
    intros ->. discriminate H.
  - intros (v & Hv & Hne). inversion Hv; subst v.
    destruct value; [now elim Hne|reflexivity].
  - discriminate.
  - intros (v & Hv & _). discriminate Hv.
Qed.

(** X18: for a configuration built from the environment, [validate] answers
    [True] exactly when DATABASE_URL, EMAIL_FROM, EMAIL_PASSWORD and EMAIL_TO
    are all set to non-empty values; an unset variable defaults to the empty
    string and fails the validation.  The location, the coordinates, the
    thresholds and the intervals play no part. *)
Theorem validate_iff_required_set
  (py_float : string -> option float) (py_int : string -> option Z)
  (environ : string -> option string) (config : Config) :
  Config__init__ py_float py_int environ = Some config ->
  validate config = true
  <-> is_set environ "DATABASE_URL" /\ is_set environ "EMAIL_FROM"
      /\ is_set environ "EMAIL_PASSWORD" /\ is_set environ "EMAIL_TO".
Proof.
  unfold Config__init__.
  destruct (py_float (getenv environ "LATITUDE" "49.2827")); [|discriminate].
  destruct (py_float (getenv environ "LONGITUDE" "-123.1207")); [|discriminate].
  destruct (py_float (getenv environ "HEAVY_RAIN_THRESHOLD" "10.0"));
    [|discriminate].
  destruct (py_float (getenv environ "STRONG_WIND_THRESHOLD" "50.0"));
    [|discriminate].
  destruct (py_float (getenv environ "EXTREME_TEMP_LOW" "0.0")); [|discriminate].
  destruct (py_float (getenv environ "EXTREME_TEMP_HIGH" "35.0"));
    [|discriminate].
  destruct (py_int (getenv environ "SCHEDULE_INTERVAL_MINUTES" "60"));
    [|discriminate].
  destruct (py_int (getenv environ "ALERT_COOLDOWN_HOURS" "6")); [|discriminate].
  intros H. inversion H; subst config. clear H.
  unfold validate. cbn [forallb DATABASE_URL EMAIL_FROM EMAIL_PASSWORD EMAIL_TO].
  rewrite !andb_true_iff, !str_truthy_getenv. tauto.
Qed.

(** An environment that sets three of the four required variables, with
    parsers that accept every string. *)
Lemma validate_iff_required_set_witness :
  exists config,
    Config__init__ (fun _ => Some 0%float) (fun _ => Some 0)
      (fun key => if String.eqb key "EMAIL_TO" then None else Some "x")
    = Some config
    /\ validate config = false.
Proof.
  eexists. split; [reflexivity|].
  apply not_true_is_false. intros H.
  apply (validate_iff_required_set (fun _ => Some 0%float) (fun _ => Some 0)
           (fun key => if String.eqb key "EMAIL_TO" then None else Some "x")
           _ eq_refl) in H.
  destruct H as (_ & _ & _ & (v & Hv & _)). discriminate Hv.
Defined.

(** ** Failed inserts that are reported *)

Lemma recoverable_tl (w w1 : world) :
  recoverable w = true -> db_script w1 = tl (db_script w) ->
  recoverable w1 = true.
Proof.
  unfold recoverable. intros H E. rewrite E.
  destruct (db_script w) as [|o rest]; cbn in *; [reflexivity|].
  now apply andb_true_iff in H.
Qed.

Lemma insert_alert_log_recoverable (type sev : string) (msg : list fpart)
  (sent : bool) (w : world) :
  recoverable w = true ->
  exists b w1,
    insert_alert_log type sev msg sent w = (Ret b, w1)
    /\ b = statement_ok (pending_db_outcome w)
    /\ db_script w1 = tl (db_script w).
Proof.
  destruct w as [now conn log wt db smtp api sf tr].
  unfold insert_alert_log, recoverable, db_recoverable, pending_db_outcome.
  cbn [db_script].
  destruct db as [|[c s rb sv] db]; cbn [forallb connect_ok rollback_ok];
    intros H.
  - destruct conn; cbn; do 2 eexists; repeat split; reflexivity.
  - apply andb_true_iff in H. destruct H as [H _].
    apply andb_true_iff in H. destruct H as [-> ->].
    destruct conn, s, sv; cbn; do 2 eexists; repeat split; reflexivity.
Qed.

Lemma _process_alert_recoverable (config : Config) (a : alert)
  (d : weather_data) (w : world) :
  recoverable w = true ->
  exists w1,
    _process_alert config a d w = (Ret tt, w1) /\ recoverable w1 = true.
Proof.
  intros Hr.
  destruct (get_recent_alerts_frame (alert_type a)
              (ALERT_COOLDOWN_HOURS config) w)
    as (w1 & E1 & _ & _ & _ & _ & D1).
  pose proof (recoverable_tl w w1 Hr D1) as Hr1.
  unfold _process_alert, bind at 1. rewrite E1.
  destruct (query_answer (alert_type a) (ALERT_COOLDOWN_HOURS config) w)
    as [|row rows].
  - destruct (_send_email_alert_frame config a d w1)
      as (w2 & E2 & _ & _ & _ & D2).
    assert (Hr2 : recoverable w2 = true) by (unfold recoverable; now rewrite D2).
    destruct (insert_alert_log_recoverable (alert_type a) (severity a)
                (message a) (pending_smtp_outcome w1) w2 Hr2)
      as (b & w3 & E3 & _ & D3).
    exists w3. unfold bind, ret. rewrite E2, E3.
    split; [reflexivity|exact (recoverable_tl w2 w3 Hr2 D3)].
  - destruct (insert_alert_log_recoverable (alert_type a) (severity a)
                (message a) false w1 Hr1)
      as (b & w3 & E3 & _ & D3).
    exists w3. unfold bind, ret. rewrite E3.
    split; [reflexivity|exact (recoverable_tl w1 w3 Hr1 D3)].
Qed.

Lemma for_each_process_alert_recoverable (config : Config) (d : weather_data)
  (l : list alert) :
  forall w,
    recoverable w = true ->
    exists w', for_each l (fun a => _process_alert config a d) w = (Ret tt, w').
Proof.
  induction l as [|a l IH]; intros w Hr.
  - now exists w.
  - destruct (_process_alert_recoverable config a d w Hr) as (w1 & E1 & Hr1).
    destruct (IH w1 Hr1) as (w' & E).
    exists w'. cbn [for_each]. unfold bind. now rewrite E1.
Qed.

(** X19: a failed audit insert that is reported does not stop the loop.
    When every database call of the dispatch gets a connection and every
    failed statement can be rolled back, [insert_alert_log] answers [False]
    for the statements that fail, [check_and_send_alerts] returns normally,
    and every alert of the evaluation gets its audit call, in order. *)
Theorem reported_insert_failures_do_not_stop_the_loop
  (config : Config) (d : weather_data) (w : world) :
  recoverable w = true ->
  fst (check_and_send_alerts config d w) = Ret tt
  /\ exists t,
       insert_calls (trace (snd (check_and_send_alerts config d w)))
       = insert_calls (trace w) ++ t
       /\ map recorded_alert t = map alert_key (alerts config d).
Proof.
  intros Hr.
  destruct (for_each_process_alert_recoverable config d (alerts config d) w Hr)
    as (w' & E).
  change (for_each (alerts config d) (fun a => _process_alert config a d) w)
    with (check_and_send_alerts config d w) in E.
  rewrite E. cbn [fst snd]. split; [reflexivity|].
  exact (check_and_send_alerts_audit config d w w' E).
Qed.

(** Every statement fails on a live connection: both alerts of the reading
    of [test_alert.py] are processed and nothing is stored. *)
Lemma reported_insert_failures_do_not_stop_the_loop_witness :
  fst (check_and_send_alerts default_config test_data
         (world_at 0 []
            [db_statement_fails; db_statement_fails; db_statement_fails;
             db_statement_fails] [] []))
  = Ret tt
  /\ alert_log
       (snd (check_and_send_alerts default_config test_data
               (world_at 0 []
                  [db_statement_fails; db_statement_fails; db_statement_fails;
                   db_statement_fails] [] [])))
     = [].
Proof.
  split; [|vm_compute; reflexivity].
  apply (reported_insert_failures_do_not_stop_the_loop default_config test_data
           (world_at 0 []
              [db_statement_fails; db_statement_fails; db_statement_fails;
               db_statement_fails] [] [])).
  reflexivity.
Defined.

(** ** The unreachable database, in general *)

Lemma _process_alert_unreachable (config : Config) (a : alert)
  (d : weather_data) (w : world) (o1 o2 : db_outcome) (rest : list db_outcome) :
  connection w <> ConnOpen ->
  db_script w = o1 :: o2 :: rest ->
  connect_ok o1 = false -> connect_ok o2 = false ->
  fst (_process_alert config a d w) = Raise UnboundLocalError
  /\ alert_log (snd (_process_alert config a d w)) = alert_log w.
Proof.
  destruct w as [now conn log wt db smtp api sf tr].
  destruct o1 as [c1 s1 rb1 sv1], o2 as [c2 s2 rb2 sv2].
  cbn [connection db_script connect_ok]. intros Hc -> -> ->.
  unfold _process_alert, get_recent_alerts, _send_email_alert, insert_alert_log.
  destruct conn; [|now elim Hc|]; destruct smtp as [|[] smtp]; cbn;
    split; reflexivity.
Qed.

(** X20: the slip of [insert_alert_log], at the level of the loop.  When the
    evaluation returns at least one alert and no connection can be obtained
    for the cooldown query nor for the audit insert, [check_and_send_alerts]
    raises [UnboundLocalError] while processing the first alert: the notifier
    has been called for it, its audit call has stored nothing, and the
    remaining alerts get neither a notifier call nor an audit call. *)
Theorem unreachable_database_stops_dispatch
  (config : Config) (d : weather_data) (w : world)
  (a : alert) (others : list alert) (o1 o2 : db_outcome)
  (rest : list db_outcome) :
  alerts config d = a :: others ->
  connection w <> ConnOpen ->
  db_script w = o1 :: o2 :: rest ->
  connect_ok o1 = false -> connect_ok o2 = false ->
  fst (check_and_send_alerts config d w) = Raise UnboundLocalError
  /\ dispatch_calls (trace (snd (check_and_send_alerts config d w)))
     = dispatch_calls (trace w)
       ++ [Call_send_email_alert a d; insert_call_of a (pending_smtp_outcome w)]
  /\ alert_log (snd (check_and_send_alerts config d w)) = alert_log w.
Proof.
  intros Ha Hc Hs H1 H2.
  destruct (_process_alert_unreachable config a d w o1 o2 rest Hc Hs H1 H2)
    as (Hr & Hl).
  pose proof (_process_alert_calls config a d w) as Hcalls.
  assert (Hq : query_answer (alert_type a) (ALERT_COOLDOWN_HOURS config) w = []).
  { unfold query_answer, db_call_succeeds, connects, pending_db_outcome.
    rewrite Hs, H1. destruct (connection w); [reflexivity|now elim Hc|reflexivity]. }
  rewrite Hq in Hcalls.
  unfold check_and_send_alerts. rewrite Ha. cbn [for_each]. unfold bind.
  destruct (_process_alert config a d w) as [r w1].
  cbn [fst snd] in *. subst r. cbn [fst snd]. repeat split; assumption.
Qed.

Lemma unreachable_database_stops_dispatch_witness :
  fst (check_and_send_alerts default_config test_data
         (world_at 0 [] [db_unreachable; db_unreachable] [true] []))
  = Raise UnboundLocalError.
Proof.
  apply (unreachable_database_stops_dispatch default_config test_data
           (world_at 0 [] [db_unreachable; db_unreachable] [true] [])
           (heavy_rain_alert default_config (PyNum (Int 15)))
           [strong_wind_alert default_config (PyNum (Int 60))]
           db_unreachable db_unreachable []);
    try reflexivity.
  discriminate.
Defined.
